(** * RescueAI: the webhook triage handler of [main.py]

    A shallow embedding of the [/webhook] endpoint: the three in-memory
    stores, the classifier call, the parse-or-fallback step, the routing
    to the hospital or consultation intake, and the enrichment of the
    stored payload.

    Conventions.
    - A Python [str] is a Rocq [string] holding its UTF-8 bytes.
    - JSON data (the result of [request.json()] and of [json.loads]) is the
      inductive type [json]; a Python [dict] is an association list in
      insertion order with distinct keys.
    - The request payload [data] is a mutable object that is appended to
      [content_store] and mutated afterwards, so it lives in a heap and the
      store holds its address.  [groq_response] and [forward_result] are
      never mutated after they are built, so they are held by value. *)

From Stdlib Require Import String Ascii ZArith List Bool Lia DecimalString.
From stdpp Require Import base list strings.
Import ListNotations.
Local Open Scope string_scope.
Local Open Scope list_scope.

(** ** JSON values *)

#[warnings="-register-all"] Inductive json : Type :=
| JNull
| JBool (b : bool)
| JInt (n : Z)
| JFloat (literal : string)   (* a float, kept as the text that denotes it *)
| JStr (s : string)
| JArr (items : list json)
| JObj (items : list (string * json)).

Global Instance json_inhabited : Inhabited json := populate JNull.

(** [type(v).__name__], as it appears in Python's error messages. *)
Definition type_name (v : json) : string :=
  match v with
  | JNull => "NoneType"
  | JBool _ => "bool"
  | JInt _ => "int"
  | JFloat _ => "float"
  | JStr _ => "str"
  | JArr _ => "list"
  | JObj _ => "dict"
  end.

(** ** Python dictionaries *)

Module Dict.

Definition t := list (string * json).

(** [d.get(k)]: [None] when the key is absent. *)
Fixpoint get (d : t) (k : string) : option json :=
  match d with
  | [] => None
  | (k', v) :: d' => if String.eqb k' k then Some v else get d' k
  end.

(** [d.get(k, default)]. *)
Definition get_or (d : t) (k : string) (default : json) : json :=
  match get d k with Some v => v | None => default end.

(** [k in d]. *)
Definition mem (d : t) (k : string) : bool :=
  match get d k with Some _ => true | None => false end.

(** [d[k] = v]: overwrite in place, or append a new key at the end. *)
Fixpoint set (d : t) (k : string) (v : json) : t :=
  match d with
  | [] => [(k, v)]
  | (k', v') :: d' =>
      if String.eqb k' k then (k', v) :: d' else (k', v') :: set d' k v
  end.

End Dict.

(** ** Strings *)

(** One byte of [str.lower()].  Only the ASCII letters are mapped: the model
    uses [lower] solely to compare with the ASCII word [emergency], and no
    code point outside ASCII lowercases to a letter of that word, so on
    this comparison the byte-wise map agrees with Python's. *)
Definition lower_ascii (c : ascii) : ascii :=
  let n := nat_of_ascii c in
  if (65 <=? n)%nat && (n <=? 90)%nat then ascii_of_nat (n + 32) else c.

Fixpoint lower (s : string) : string :=
  match s with
  | EmptyString => EmptyString
  | String c s' => String (lower_ascii c) (lower s')
  end.

(** [sub in s] for two strings. *)
Fixpoint substring_of (sub s : string) : bool :=
  String.prefix sub s ||
  match s with
  | EmptyString => false
  | String _ s' => substring_of sub s'
  end.

(** A surrogate code point in the UTF-8 bytes of a string: the byte 237
    followed by a byte from 160 to 191.  Well-formed UTF-8 has no such
    pair; a Python [str] can hold one, for instance after decoding the
    JSON escape of a lone surrogate. *)
Fixpoint has_surrogate (s : string) : bool :=
  match s with
  | String a ((String b _) as s') =>
      ((nat_of_ascii a =? 237)%nat
       && (160 <=? nat_of_ascii b)%nat && (nat_of_ascii b <=? 191)%nat)
      || has_surrogate s'
  | _ => false
  end.

(** ** Exceptions *)

(** The subclasses of [Exception] that the handler can meet. *)
Inductive exn : Type :=
| AttributeError (type_of_obj attr : string)  (* 'T' object has no attribute 'a' *)
| TypeError (msg : string)
| JSONDecodeError
| ClientError (msg : string)    (* raised inside the Groq client: connection,
                                   timeout, status, authentication, ... *)
| UnicodeEncodeError.           (* raised by [print] on text that the
                                   standard output cannot encode *)

Inductive outcome (A : Type) : Type :=
| Returned (a : A)
| Raised (e : exn).
Arguments Returned {A} a.
Arguments Raised {A} e.

(** ** The JSON decoder of the Python standard library

    [PyJson.loads] follows CPython's [json.loads] with its default
    arguments: white space is space, tab, line feed and carriage return;
    strings are strict (no raw control character) and understand the
    escapes with surrogate pairs joined; numbers are integers or floats;
    [NaN], [Infinity] and [-Infinity] are accepted; a repeated key keeps
    its first position and its last value; anything after the value other
    than white space is an error.  The interpreter's recursion limit and
    its limit on the number of digits of an integer are not modelled, and
    a float is kept as the text that denotes it, not as its value.  The
    properties of the handler are proved for any decoder; this one serves
    to run the handler on concrete answers. *)

Module PyJson.

Definition is_ws (c : ascii) : bool :=
  match c with
  | " "%char | "009"%char | "010"%char | "013"%char => true
  | _ => false
  end.

Fixpoint skip_ws (s : string) : string :=
  match s with
  | String c s' => if is_ws c then skip_ws s' else s
  | EmptyString => s
  end.

Definition is_digit (c : ascii) : bool :=
  let n := nat_of_ascii c in (48 <=? n)%nat && (n <=? 57)%nat.

Definition digit_val (c : ascii) : Z := Z.of_nat (nat_of_ascii c) - 48.

Definition hex_val (c : ascii) : option N :=
  let n := N_of_ascii c in
  if (48 <=? n)%N && (n <=? 57)%N then Some (n - 48)%N
  else if (97 <=? n)%N && (n <=? 102)%N then Some (n - 87)%N
  else if (65 <=? n)%N && (n <=? 70)%N then Some (n - 55)%N
  else None.

(** Four hexadecimal digits at the head of [s]. *)
Definition hex4 (s : string) : option (N * string) :=
  match s with
  | String a (String b (String c (String d rest))) =>
      match hex_val a, hex_val b, hex_val c, hex_val d with
      | Some x, Some y, Some z, Some w =>
          Some (((x * 16 + y) * 16 + z) * 16 + w, rest)%N
      | _, _, _, _ => None
      end
  | _ => None
  end.

Definition byte (n : N) : ascii := ascii_of_N n.

(** The UTF-8 bytes of a code point (a lone surrogate is encoded like any
    other three-byte code point). *)
Definition utf8 (cp : N) : string :=
  if (cp <? 128)%N then String (byte cp) EmptyString
  else if (cp <? 2048)%N then
    String (byte (192 + cp / 64)) (String (byte (128 + cp mod 64)) EmptyString)
  else if (cp <? 65536)%N then
    String (byte (224 + cp / 4096))
      (String (byte (128 + (cp / 64) mod 64))
         (String (byte (128 + cp mod 64)) EmptyString))
  else
    String (byte (240 + cp / 262144))
      (String (byte (128 + (cp / 4096) mod 64))
         (String (byte (128 + (cp / 64) mod 64))
            (String (byte (128 + cp mod 64)) EmptyString))).

Definition is_high_surrogate (cp : N) : bool := (55296 <=? cp)%N && (cp <=? 56319)%N.
Definition is_low_surrogate (cp : N) : bool := (56320 <=? cp)%N && (cp <=? 57343)%N.

(** The code point of a [\uXXXX] escape whose digits start at [s]; a high
    surrogate followed by an escaped low surrogate is joined with it. *)
Definition unicode_escape (s : string) : option (N * string) :=
  match hex4 s with
  | None => None
  | Some (c, rest) =>
      if is_high_surrogate c then
        match rest with
        | String "\"%char (String "u"%char rest2) =>
            match hex4 rest2 with
            | Some (c2, rest3) =>
                if is_low_surrogate c2
                then Some (65536 + (c - 55296) * 1024 + (c2 - 56320), rest3)%N
                else Some (c, rest)
            | None => Some (c, rest)
            end
        | _ => Some (c, rest)
        end
      else Some (c, rest)
  end.

(** [scanstring]: the text after an opening quote, up to the closing one. *)
Fixpoint scanstring (fuel : nat) (s : string) : option (string * string) :=
  match fuel with
  | O => None
  | S fuel' =>
      match s with
      | EmptyString => None                         (* unterminated *)
      | String "034"%char rest => Some (EmptyString, rest)
      | String "\"%char EmptyString => None
      | String "\"%char (String e rest) =>
          let simple (c : ascii) :=
            match scanstring fuel' rest with
            | Some (str, rest') => Some (String c str, rest')
            | None => None
            end in
          match e with
          | "034"%char => simple "034"%char
          | "\"%char => simple "\"%char
          | "/"%char => simple "/"%char
          | "b"%char => simple "008"%char
          | "f"%char => simple "012"%char
          | "n"%char => simple "010"%char
          | "r"%char => simple "013"%char
          | "t"%char => simple "009"%char
          | "u"%char =>
              match unicode_escape rest with
              | Some (cp, rest') =>
                  match scanstring fuel' rest' with
                  | Some (str, rest'') => Some (utf8 cp +:+ str, rest'')
                  | None => None
                  end
              | None => None
              end
          | _ => None                               (* invalid escape *)
          end
      | String c rest =>
          if (nat_of_ascii c <? 32)%nat then None   (* control character *)
          else
            match scanstring fuel' rest with
            | Some (str, rest') => Some (String c str, rest')
            | None => None
            end
      end
  end.

(** The longest run of decimal digits at the head of [s]. *)
Fixpoint span_digits (s : string) : string * string :=
  match s with
  | String c s' =>
      if is_digit c then let '(ds, rest) := span_digits s' in (String c ds, rest)
      else (EmptyString, s)
  | EmptyString => (EmptyString, s)
  end.

Fixpoint decimal (acc : Z) (ds : string) : Z :=
  match ds with
  | EmptyString => acc
  | String c ds' => decimal (acc * 10 + digit_val c) ds'
  end.

(** The integer part: [0], or a non-zero digit and more digits. *)
Definition int_part (s : string) : option (string * string) :=
  match s with
  | String c s' =>
      if Ascii.eqb c "0" then Some ("0", s')
      else if is_digit c then let '(ds, rest) := span_digits s' in Some (String c ds, rest)
      else None
  | EmptyString => None
  end.

(** A fraction: a dot and at least one digit; otherwise nothing is read. *)
Definition frac_part (s : string) : string * string :=
  match s with
  | String "."%char s' =>
      match span_digits s' with
      | (EmptyString, _) => (EmptyString, s)
      | (ds, rest) => (String "." ds, rest)
      end
  | _ => (EmptyString, s)
  end.

(** An exponent: [e] or [E], an optional sign and at least one digit;
    otherwise nothing is read. *)
Definition exp_part (s : string) : string * string :=
  match s with
  | String e s' =>
      if Ascii.eqb e "e" || Ascii.eqb e "E" then
        let '(sign, s'') :=
          match s' with
          | String c t =>
              if Ascii.eqb c "+" || Ascii.eqb c "-"
              then (String c EmptyString, t) else (EmptyString, s')
          | EmptyString => (EmptyString, s')
          end in
        match span_digits s'' with
        | (EmptyString, _) => (EmptyString, s)
        | (ds, rest) => (String e (sign +:+ ds), rest)
        end
      else (EmptyString, s)
  | EmptyString => (EmptyString, s)
  end.

Definition match_number (s : string) : option (json * string) :=
  let '(neg, s1) :=
    match s with
    | String "-"%char t => (true, t)
    | _ => (false, s)
    end in
  match int_part s1 with
  | None => None
  | Some (ip, s2) =>
      let '(fp, s3) := frac_part s2 in
      let '(ep, s4) := exp_part s3 in
      match fp, ep with
      | EmptyString, EmptyString =>
          Some (JInt (if neg then - decimal 0 ip else decimal 0 ip), s4)
      | _, _ =>
          Some (JFloat ((if neg then "-" else "") +:+ ip +:+ fp +:+ ep), s4)
      end
  end.

(** [strip_prefix p s]: what follows [p] in [s], when [s] starts with [p]. *)
Fixpoint strip_prefix (p s : string) : option string :=
  match p, s with
  | EmptyString, _ => Some s
  | String a p', String b s' => if Ascii.eqb a b then strip_prefix p' s' else None
  | String _ _, EmptyString => None
  end.

Definition constant (word : string) (v : json) (s : string) : option (json * string) :=
  match strip_prefix word s with
  | Some rest => Some (v, rest)
  | None => None
  end.

(** [scan_once] reads one value at the head of [s]; [array_items] and
    [object_items] read the elements that follow a value inside brackets
    and braces. *)
Fixpoint scan_once (fuel : nat) (s : string) : option (json * string) :=
  match fuel with
  | O => None
  | S fuel' =>
      match s with
      | EmptyString => None
      | String c rest =>
          match c with
          | "034"%char =>
              match scanstring (S (String.length rest)) rest with
              | Some (str, rest') => Some (JStr str, rest')
              | None => None
              end
          | "{"%char =>
              match skip_ws rest with
              | String "}"%char rest' => Some (JObj [], rest')
              | s' => object_items fuel' [] s'
              end
          | "["%char =>
              match skip_ws rest with
              | String "]"%char rest' => Some (JArr [], rest')
              | s' => array_items fuel' [] s'
              end
          | "n"%char => constant "null" JNull s
          | "t"%char => constant "true" (JBool true) s
          | "f"%char => constant "false" (JBool false) s
          | "N"%char => constant "NaN" (JFloat "NaN") s
          | "I"%char => constant "Infinity" (JFloat "Infinity") s
          | "-"%char =>
              match constant "-Infinity" (JFloat "-Infinity") s with
              | Some r => Some r
              | None => match_number s
              end
          | _ => match_number s
          end
      end
  end
with array_items (fuel : nat) (acc : list json) (s : string) : option (json * string) :=
  match fuel with
  | O => None
  | S fuel' =>
      match scan_once fuel' s with
      | None => None
      | Some (v, rest) =>
          match skip_ws rest with
          | String "]"%char rest' => Some (JArr (acc ++ [v]), rest')
          | String ","%char rest' => array_items fuel' (acc ++ [v]) (skip_ws rest')
          | _ => None
          end
      end
  end
with object_items (fuel : nat) (acc : Dict.t) (s : string) : option (json * string) :=
  match fuel with
  | O => None
  | S fuel' =>
      match s with
      | String "034"%char s1 =>
          match scanstring (S (String.length s1)) s1 with
          | None => None
          | Some (key, s2) =>
              match skip_ws s2 with
              | String ":"%char s3 =>
                  match scan_once fuel' (skip_ws s3) with
                  | None => None
                  | Some (v, s4) =>
                      match skip_ws s4 with
                      | String "}"%char rest' => Some (JObj (Dict.set acc key v), rest')
                      | String ","%char rest' =>
                          object_items fuel' (Dict.set acc key v) (skip_ws rest')
                      | _ => None
                      end
                  end
              | _ => None
              end
          end
      | _ => None                  (* a key must be a quoted string *)
      end
  end.

(** The byte order mark U+FEFF in UTF-8. *)
Definition bom : string :=
  String (byte 239) (String (byte 187) (String (byte 191) EmptyString)).

(** [json.loads(s)].  [s] is [None] when the Python argument is [None],
    which [json.loads] rejects with a [TypeError]. *)
Definition loads (s : option string) : outcome json :=
  match s with
  | None => Raised (TypeError "the JSON object must be str, bytes or bytearray, not NoneType")
  | Some s =>
      if String.prefix bom s then Raised JSONDecodeError
      else
        match scan_once (2 * String.length s + 2) (skip_ws s) with
        | Some (v, rest) =>
            match skip_ws rest with
            | EmptyString => Returned v
            | String _ _ => Raised JSONDecodeError      (* extra data *)
            end
        | None => Raised JSONDecodeError
        end
  end.

End PyJson.

(** ** The process state *)

(** Address of a heap object. *)
Definition loc := nat.

(** What the handler sends to the classifier.  The prompt text of the source
    is a fixed template around [str(transcript)], [json.dumps(extracted_data)]
    and [json.dumps(context_details)]; the three values determine it and are
    kept as such. *)
Record groq_prompt : Type := GroqPrompt {
  prompt_transcript : json;
  prompt_extracted_data : json;
  prompt_context_details : json
}.

Record world : Type := World {
  heap : list json;                 (* the request payloads, by address *)
  content_store : list loc;         (* raw webhook payloads *)
  hospital_store : list json;       (* data forwarded to hospital API *)
  consultation_store : list json;   (* data forwarded to consultation API *)
  groq_calls : list groq_prompt     (* the classifier calls made so far *)
}.

Definition initial_world : world := World [] [] [] [] [].

(** The payload a stored address currently denotes. *)
Definition deref (w : world) (l : loc) : json := heap w !!! l.

(** ** Computations of the handler: state and exceptions

    A raised exception keeps the state reached so far, as in Python. *)

Definition M (A : Type) : Type := world -> outcome A * world.

Definition ret {A} (a : A) : M A := fun w => (Returned a, w).

Definition raise {A} (e : exn) : M A := fun w => (Raised e, w).

Definition bind {A B} (m : M A) (k : A -> M B) : M B :=
  fun w =>
    match m w with
    | (Returned a, w') => k a w'
    | (Raised e, w') => (Raised e, w')
    end.

(** [try: m except Exception as e: h e]. *)
Definition try_except {A} (m : M A) (h : exn -> M A) : M A :=
  fun w =>
    match m w with
    | (Returned a, w') => (Returned a, w')
    | (Raised e, w') => h e w'
    end.

Definition lift {A} (o : outcome A) : M A := fun w => (o, w).

Notation "x <- m ;; k" := (bind m (fun x => k))
  (at level 100, m at next level, right associativity).
Notation "m ;;; k" := (bind m (fun _ => k))
  (at level 100, right associativity).

(** *** Heap objects *)

(** [new_object v] enters [v] in the heap at a fresh address.  Addresses
    serve to follow the writes to an object that a store refers to; for
    values that cannot be written (numbers, strings, booleans, [None])
    they say nothing about the identity of Python objects, which the
    interpreter may share. *)
Definition new_object (v : json) : M loc :=
  fun w =>
    (Returned (length (heap w)),
     World (heap w ++ [v]) (content_store w) (hospital_store w)
           (consultation_store w) (groq_calls w)).

Definition load (l : loc) : M json := fun w => (Returned (deref w l), w).

Definition store (l : loc) (v : json) : M unit :=
  fun w =>
    (Returned tt,
     World (<[l := v]> (heap w)) (content_store w) (hospital_store w)
           (consultation_store w) (groq_calls w)).

(** *** Operations on JSON values *)

(** [v.get(key, default)]. *)
Definition json_get (v : json) (key : string) (default : json) : outcome json :=
  match v with
  | JObj d => Returned (Dict.get_or d key default)
  | _ => Raised (AttributeError (type_name v) "get")
  end.

(** [v.lower()]. *)
Definition json_lower (v : json) : outcome string :=
  match v with
  | JStr s => Returned (lower s)
  | _ => Raised (AttributeError (type_name v) "lower")
  end.

(** [key in v]: a key of a dict, an element of a list, a substring of a
    string; other values are not containers. *)
Definition json_in (key : string) (v : json) : outcome bool :=
  match v with
  | JObj d => Returned (Dict.mem d key)
  | JArr xs =>
      Returned (existsb (fun x => match x with JStr s => String.eqb s key | _ => false end) xs)
  | JStr s => Returned (substring_of key s)
  | _ => Raised (TypeError ("argument of type '" +:+ type_name v +:+ "' is not iterable"))
  end.

(** [v[key] = x] for a string key. *)
Definition json_setitem (v : json) (key : string) (x : json) : outcome json :=
  match v with
  | JObj d => Returned (JObj (Dict.set d key x))
  | JArr _ => Raised (TypeError "list indices must be integers or slices, not str")
  | _ => Raised (TypeError ("'" +:+ type_name v +:+ "' object does not support item assignment"))
  end.

(** [print(v)] writes [str(v)] to the standard output, taken to be in UTF-8
    with strict errors, the default.  [str] of a dict, a list, a number, a
    boolean or [None] escapes whatever it cannot show, so it is always
    encodable; [str] of a string is the string itself, which cannot be
    encoded when it holds a surrogate.  Only the failure of [print] is
    modelled: what it writes is read by no endpoint. *)
Definition printable (v : json) : bool :=
  match v with
  | JStr s => negb (has_surrogate s)
  | _ => true
  end.

Definition py_print (v : json) : M unit :=
  if printable v then ret tt else raise UnicodeEncodeError.

(** The same operations on the object at an address. *)
Definition py_get (l : loc) (key : string) (default : json) : M json :=
  v <- load l ;; lift (json_get v key default).

Definition py_in (key : string) (l : loc) : M bool :=
  v <- load l ;; lift (json_in key v).

Definition py_setitem (l : loc) (key : string) (x : json) : M unit :=
  v <- load l ;; v' <- lift (json_setitem v key x) ;; store l v'.

(** *** The stores *)

(** [content_store.append(data)]. *)
Definition content_store_append (data : loc) : M unit :=
  fun w =>
    (Returned tt,
     World (heap w) (content_store w ++ [data]) (hospital_store w)
           (consultation_store w) (groq_calls w)).

Definition forward_to_hospital (data : json) : M json :=
  fun w =>
    (Returned (JObj [("message", JStr "Data forwarded to hospital.")]),
     World (heap w) (content_store w) (hospital_store w ++ [data])
           (consultation_store w) (groq_calls w)).

Definition forward_to_consultation (data : json) : M json :=
  fun w =>
    (Returned (JObj [("message", JStr "Data forwarded to consultation.")]),
     World (heap w) (content_store w) (hospital_store w)
           (consultation_store w ++ [data]) (groq_calls w)).

(** ** The webhook handler *)

(** What the endpoint answers: the returned JSON body, or the
    [HTTPException] it raises, whose detail is
    ["Invalid JSON data: " + str(cause)]. *)
Inductive http_result : Type :=
| Response (body : json)
| HTTPException (status_code : Z) (cause : exn).

Section Webhook.

(** [json.loads], applied to [message.content] ([None] when the message
    has no content). *)
Variable json_loads : option string -> outcome json.

(** [Groq()], [client.chat.completions.create(...)] and
    [.choices[0].message.content]: the content of the first choice, or the
    exception one of the three raises. *)
Variable groq : groq_prompt -> outcome (option string).

Definition chat_completion (p : groq_prompt) : M (option string) :=
  fun w =>
    (groq p,
     World (heap w) (content_store w) (hospital_store w)
           (consultation_store w) (groq_calls w ++ [p])).

(** The dict built when [json.loads] raises. *)
Definition fallback (data : loc) : M json :=
  ed <- py_get data "extracted_data" (JObj []) ;;
  location <- lift (json_get ed "location" (JStr "")) ;;
  ed' <- py_get data "extracted_data" (JObj []) ;;
  issue <- lift (json_get ed' "issues" (JStr "")) ;;
  cd <- py_get data "context_details" (JObj []) ;;
  phone <- lift (json_get cd "recipient_phone_number" (JStr "")) ;;
  ret (JObj [("status", JStr "not emergency");
             ("location", location);
             ("issue", issue);
             ("recipient_phone_number", phone)]).

(** Lines 120-129: [try: json.loads(...) except Exception: {...}]. *)
Definition parse (groq_response_text : option string) (data : loc) : M json :=
  try_except (lift (json_loads groq_response_text)) (fun _ => fallback data).

(** Lines 132-135: the routing. *)
Definition route (groq_response : json) : M json :=
  status <- lift (json_get groq_response "status" (JStr "")) ;;
  lowered <- lift (json_lower status) ;;
  if String.eqb lowered "emergency"
  then forward_to_hospital groq_response
  else forward_to_consultation groq_response.

(** Lines 79-139: the branch taken when ['extracted_data' in data]. *)
Definition process (data : loc) : M unit :=
  transcript <- py_get data "transcript" (JStr "") ;;
  extracted <- py_get data "extracted_data" (JObj []) ;;
  context <- py_get data "context_details" (JObj []) ;;
  groq_response_text <- chat_completion (GroqPrompt transcript extracted context) ;;
  groq_response <- parse groq_response_text data ;;
  forward_result <- route groq_response ;;
  py_setitem data "groq_response" groq_response ;;;
  py_setitem data "forward_result" forward_result.

(** The body of the outer [try]. [request_json] is what
    [await request.json()] gives: the decoded payload, or the exception
    raised on a body that is not JSON.  The payload is printed, and then
    enters the heap as the object [data] that [content_store] refers to. *)
Definition webhook_try (request_json : outcome json) : M json :=
  payload <- lift request_json ;;
  py_print payload ;;;
  data <- new_object payload ;;
  content_store_append data ;;;
  has <- py_in "extracted_data" data ;;
  (if has : bool then process data else ret tt) ;;;
  final <- load data ;;
  ret (JObj [("status", JStr "success");
             ("message", JStr "Webhook received and processed");
             ("data", final)]).

(** [webhook]: any exception of the body becomes an HTTP 400. *)
Definition webhook (request_json : outcome json) (w : world) : http_result * world :=
  match webhook_try request_json w with
  | (Returned body, w') => (Response body, w')
  | (Raised e, w') => (HTTPException 400 e, w')
  end.

End Webhook.

(** ** Notions of the specification *)

(** The two destinations of the routing, and the acknowledgement each
    intake returns. *)
Inductive destination : Type := hospital | consultation.

Definition acknowledgement (dst : destination) : json :=
  match dst with
  | hospital => JObj [("message", JStr "Data forwarded to hospital.")]
  | consultation => JObj [("message", JStr "Data forwarded to consultation.")]
  end.

(** Equality of two strings up to the case of their ASCII letters, defined
    letter by letter and without [lower]. *)
Definition is_upper (c : ascii) : bool :=
  (65 <=? nat_of_ascii c)%nat && (nat_of_ascii c <=? 90)%nat.

Definition same_letter (a b : ascii) : bool :=
  Ascii.eqb a b
  || (is_upper a && (nat_of_ascii b =? nat_of_ascii a + 32)%nat)
  || (is_upper b && (nat_of_ascii a =? nat_of_ascii b + 32)%nat).

Fixpoint caseless_eq (s t : string) : bool :=
  match s, t with
  | EmptyString, EmptyString => true
  | String a s', String b t' => same_letter a b && caseless_eq s' t'
  | _, _ => false
  end.

(** No capital letter in [t]. *)
Fixpoint no_upper (t : string) : bool :=
  match t with
  | EmptyString => true
  | String c t' => negb (is_upper c) && no_upper t'
  end.

(** The deterministic heuristic, in the words of the specification: the
    field of an optional container if present, else the empty string. *)
Definition field_or_empty (container : option json) (key : string) : json :=
  match container with
  | Some (JObj fields) =>
      match Dict.get fields key with Some v => v | None => JStr "" end
  | _ => JStr ""
  end.

Definition heuristic (event : Dict.t) : json :=
  JObj [("status", JStr "not emergency");
        ("location", field_or_empty (Dict.get event "extracted_data") "location");
        ("issue", field_or_empty (Dict.get event "extracted_data") "issues");
        ("recipient_phone_number",
         field_or_empty (Dict.get event "context_details") "recipient_phone_number")].

(** An event of the data model: [extracted_data] and [context_details] are
    mappings when they are present. *)
Definition mapping_or_absent (o : option json) : Prop :=
  match o with
  | None | Some (JObj _) => True
  | Some _ => False
  end.

(** The answers the routing can read: an object whose [status], if present,
    is a string. *)
Definition readable_answer (v : json) : bool :=
  match v with
  | JObj o =>
      match Dict.get o "status" with
      | None | Some (JStr _) => true
      | Some _ => false
      end
  | _ => false
  end.

(** ** Vocabulary for the results of one request *)

(** The body returned on success. *)
Definition success (data : json) : json :=
  JObj [("status", JStr "success");
        ("message", JStr "Webhook received and processed");
        ("data", data)].

(** The event with the classification and the routing outcome attached. *)
Definition enrich (event : Dict.t) (groq_response forward_result : json) : json :=
  JObj (Dict.set (Dict.set event "groq_response" groq_response)
                 "forward_result" forward_result).

(** The prompt built from an event. *)
Definition prompt_of (event : Dict.t) : groq_prompt :=
  GroqPrompt (Dict.get_or event "transcript" (JStr ""))
             (Dict.get_or event "extracted_data" (JObj []))
             (Dict.get_or event "context_details" (JObj [])).

(** The state after one request: one new object [stored], recorded in
    [content_store]; [calls], [to_hospital] and [to_consultation] are what
    the request added to the call log and to the two intake stores. *)
Definition received (w : world) (stored : json) (calls : list groq_prompt)
    (to_hospital to_consultation : list json) : world :=
  World (heap w ++ [stored])
        (content_store w ++ [length (heap w)])
        (hospital_store w ++ to_hospital)
        (consultation_store w ++ to_consultation)
        (groq_calls w ++ calls).

(** The payloads the content store currently shows. *)
Definition content (w : world) : list json := map (deref w) (content_store w).

(** *** The handler's steps as functions of the event *)

Definition obind {A B} (o : outcome A) (k : A -> outcome B) : outcome B :=
  match o with
  | Returned a => k a
  | Raised e => Raised e
  end.

Definition fallback_of (event : Dict.t) : outcome json :=
  obind (json_get (Dict.get_or event "extracted_data" (JObj [])) "location" (JStr ""))
    (fun location =>
  obind (json_get (Dict.get_or event "extracted_data" (JObj [])) "issues" (JStr ""))
    (fun issue =>
  obind (json_get (Dict.get_or event "context_details" (JObj []))
           "recipient_phone_number" (JStr ""))
    (fun phone =>
  Returned (JObj [("status", JStr "not emergency");
                  ("location", location);
                  ("issue", issue);
                  ("recipient_phone_number", phone)])))).

Definition parse_of (decoded : outcome json) (event : Dict.t) : outcome json :=
  match decoded with
  | Returned v => Returned v
  | Raised _ => fallback_of event
  end.

Definition destination_of (groq_response : json) : outcome destination :=
  obind (json_get groq_response "status" (JStr "")) (fun status =>
  obind (json_lower status) (fun lowered =>
  Returned (if String.eqb lowered "emergency" then hospital else consultation))).

(** The two ways a request on an event that carries [extracted_data] can
    end.  [aborted]: an HTTP 400; the event is stored as it came and the
    classifier was called.  [routed]: success; the stored event is the
    enriched one and the classification went to one intake. *)
Definition aborted (event : Dict.t) (w : world) (e : exn) : http_result * world :=
  (HTTPException 400 e, received w (JObj event) [prompt_of event] [] []).

Definition routed (event : Dict.t) (w : world) (classification : json)
    (dst : destination) : http_result * world :=
  let enriched := enrich event classification (acknowledgement dst) in
  (Response (success enriched),
   received w enriched [prompt_of event]
     (match dst with hospital => [classification] | consultation => [] end)
     (match dst with hospital => [] | consultation => [classification] end)).

Definition run_of (decoded : option string -> outcome json)
    (answer : outcome (option string)) (event : Dict.t) (w : world)
  : http_result * world :=
  match answer with
  | Raised e => aborted event w e
  | Returned text =>
      match parse_of (decoded text) event with
      | Raised e => aborted event w e
      | Returned groq_response =>
          match destination_of groq_response with
          | Raised e => aborted event w e
          | Returned dst => routed event w groq_response dst
          end
      end
  end.

(** ** Example data *)

Definition quote : string := String (ascii_of_nat 34) EmptyString.

(** The event of the specification's scenarios. *)
Definition chest_pain : Dict.t :=
  [("transcript", JStr "chest pain");
   ("extracted_data", JObj [("location", JStr "Main St"); ("issues", JStr "chest pain")]);
   ("context_details", JObj [("recipient_phone_number", JStr "555-1111")])].

(** An event without [extracted_data]. *)
Definition greeting : Dict.t := [("transcript", JStr "hello")].

(** The answer [{"status": "EMERGENCY"}]. *)
Definition answer_status_only : string :=
  "{" +:+ quote +:+ "status" +:+ quote +:+ ": " +:+ quote +:+ "EMERGENCY" +:+ quote +:+ "}".

(** The answer [{"location": "Main St"}]. *)
Definition answer_no_status : string :=
  "{" +:+ quote +:+ "location" +:+ quote +:+ ": " +:+ quote +:+ "Main St" +:+ quote +:+ "}".

(** The answer [{"status": 1}]. *)
Definition answer_numeric_status : string :=
  "{" +:+ quote +:+ "status" +:+ quote +:+ ": 1}".

(** The answer [{"status": "urgent"}]. *)
Definition answer_other_status : string :=
  "{" +:+ quote +:+ "status" +:+ quote +:+ ": " +:+ quote +:+ "urgent" +:+ quote +:+ "}".

(** The answer of the specification's first scenario. *)
Definition answer_full : string :=
  "{" +:+ quote +:+ "status" +:+ quote +:+ ":" +:+ quote +:+ "emergency" +:+ quote +:+ ","
  +:+ quote +:+ "location" +:+ quote +:+ ":" +:+ quote +:+ "Main St" +:+ quote +:+ ","
  +:+ quote +:+ "issue" +:+ quote +:+ ":" +:+ quote +:+ "chest pain" +:+ quote +:+ ","
  +:+ quote +:+ "recipient_phone_number" +:+ quote +:+ ":" +:+ quote +:+ "555-1111" +:+ quote
  +:+ "}".

(** An event that already has a field named [groq_response]. *)
Definition relabelled : Dict.t :=
  [("extracted_data", JObj []); ("groq_response", JStr "pending")].

(** A classifier that answers a fixed text, and one that fails. *)
Definition answers (text : string) : groq_prompt -> outcome (option string) :=
  fun _ => Returned (Some text).

Definition times_out : groq_prompt -> outcome (option string) :=
  fun _ => Raised (ClientError "Request timed out.").

(** ** The intake endpoints [/hospital] and [/consultation] *)

(** [hospital_store.append(data)] and [consultation_store.append(data)].  The
    payload of these endpoints is never written after it is stored, so it is
    held by value. *)
Definition hospital_store_append (data : json) : M unit :=
  fun w =>
    (Returned tt,
     World (heap w) (content_store w) (hospital_store w ++ [data])
           (consultation_store w) (groq_calls w)).

Definition consultation_store_append (data : json) : M unit :=
  fun w =>
    (Returned tt,
     World (heap w) (content_store w) (hospital_store w)
           (consultation_store w ++ [data]) (groq_calls w)).

(** The outer [try ... except Exception as e: raise HTTPException(400, ...)]
    that the three JSON endpoints share. *)
Definition or_bad_request (body : M json) (w : world) : http_result * world :=
  match body w with
  | (Returned answer, w') => (Response answer, w')
  | (Raised e, w') => (HTTPException 400 e, w')
  end.

Definition hospital_endpoint (request_json : outcome json) : world -> http_result * world :=
  or_bad_request
    (data <- lift request_json ;;
     hospital_store_append data ;;;
     ret (JObj [("status", JStr "success");
                ("message", JStr "Data received by hospital API");
                ("data", data)])).

Definition consultation_endpoint (request_json : outcome json)
  : world -> http_result * world :=
  or_bad_request
    (data <- lift request_json ;;
     consultation_store_append data ;;;
     ret (JObj [("status", JStr "success");
                ("message", JStr "Data received by consultation API");
                ("data", data)])).

(** ** The call endpoint [/make-call] *)

(** An exception met on the call path: whether it is an instance of
    [requests.exceptions.RequestException], and its [str]. *)
Record call_error : Type := CallError {
  is_request_exception : bool;
  error_text : string
}.

(** What [requests.post] is called with. *)
Record post_request : Type := PostRequest {
  post_url : string;
  post_json : json;
  post_headers : list (string * string)
}.

(** The response object of [requests.post]: what [raise_for_status()] raises
    ([None] when the status is not an error) and what [json()] gives. *)
Record vendor_response : Type := VendorResponse {
  raise_for_status : option call_error;
  response_json : call_error + json
}.

(** What leaves [make_bolna_call] when it does not return: the
    [HTTPException] it raises, or an exception it does not catch. *)
Inductive call_exn : Type :=
| CallHTTPException (status_code : Z) (detail : string)
| Uncaught (e : call_error).

(** What the endpoint answers. *)
Inductive call_result : Type :=
| CallResponse (body : json)
| CallFailed (status_code : Z) (detail : string).

(** [str(x)] for the value of [os.getenv]. *)
Definition str_of_env (x : option string) : string :=
  match x with
  | Some v => v
  | None => "None"
  end.

Section Call.

(** [os.getenv], [requests.post], and [str] of an [HTTPException] with a
    status code and a detail. *)
Variable getenv : string -> option string.
Variable requests_post : post_request -> call_error + vendor_response.
Variable http_exception_str : Z -> string -> string.

(** Lines 32-40: the request sent to the vendor. *)
Definition bolna_request (recipient_phone_number : string) : post_request :=
  PostRequest "https://api.bolna.dev/call"
    (JObj [("agent_id",
            match getenv "agent_id" with Some v => JStr v | None => JNull end);
           ("recipient_phone_number", JStr recipient_phone_number)])
    [("Authorization", "Bearer " +:+ str_of_env (getenv "Authorization"));
     ("Content-Type", "application/json")].

(** Lines 42-44: the body of the [try]. *)
Definition bolna_attempt (recipient_phone_number : string) : call_error + json :=
  match requests_post (bolna_request recipient_phone_number) with
  | inl e => inl e
  | inr response =>
      match raise_for_status response with
      | Some e => inl e
      | None => response_json response
      end
  end.

Definition make_bolna_call (recipient_phone_number : string) : call_exn + json :=
  match bolna_attempt recipient_phone_number with
  | inr result => inr result
  | inl e =>
      if is_request_exception e
      then inl (CallHTTPException 500 ("API call failed: " +:+ error_text e))
      else inl (Uncaught e)
  end.

Definition initiate_call (recipient_phone_number : string) : call_result :=
  match make_bolna_call recipient_phone_number with
  | inr result => CallResponse (JObj [("status", JStr "success"); ("data", result)])
  | inl (CallHTTPException status_code detail) =>
      CallFailed 500 (http_exception_str status_code detail)
  | inl (Uncaught e) => CallFailed 500 (error_text e)
  end.

End Call.

(** ** Shape of the payload and of the state *)

(** The payload is a JSON object (a Python [dict]). *)
Definition is_object (v : json) : bool :=
  match v with
  | JObj _ => true
  | _ => false
  end.

(** Every address in the content store denotes an object of the heap. *)
Definition addresses_valid (w : world) : Prop :=
  Forall (fun l => (l < length (heap w))%nat) (content_store w).

(** ** More example data *)

(** A vendor that accepts the call, one that answers with an error status,
    and a connection that fails. *)
Definition vendor_accepts : post_request -> call_error + vendor_response :=
  fun _ => inr (VendorResponse None (inr (JObj [("call_id", JStr "c-1")]))).

Definition vendor_rejects : post_request -> call_error + vendor_response :=
  fun _ => inr (VendorResponse (Some (CallError true "401 Client Error"))
                  (inr (JObj [("error", JStr "unauthorized")]))).

Definition connection_fails : post_request -> call_error + vendor_response :=
  fun _ => inl (CallError true "Connection refused").

Definition no_env : string -> option string := fun _ => None.

(** [str] of an [HTTPException] as the status code, a colon and the detail. *)
Definition colon_str (status_code : Z) (detail : string) : string :=
  NilZero.string_of_int (Z.to_int status_code) +:+ ": " +:+ detail.

(** The string that the JSON text ["\ud800"] decodes to: one lone
    surrogate. *)
Definition lone_surrogate : string :=
  String (ascii_of_nat 237) (String (ascii_of_nat 160) (String (ascii_of_nat 128) EmptyString)).

(** An event whose [extracted_data] is text, not a mapping. *)
Definition flat_event : Dict.t :=
  [("transcript", JStr "help"); ("extracted_data", JStr "Main St")].

(** An event whose [context_details] is [null]. *)
Definition null_context : Dict.t :=
  [("extracted_data", JObj []); ("context_details", JNull)].

(** * Properties *)

(** Evaluation of a closed request, and absence from a closed list. *)
Ltac run := vm_compute; repeat split; try reflexivity; try discriminate.

Ltac absent :=
  vm_compute;
  repeat match goal with
         | |- _ -> False => intros H; repeat destruct H as [H|H]; try discriminate H; try exact H
         end.

(** ** Dictionaries *)

Lemma dict_get_set_eq (d : Dict.t) k v : Dict.get (Dict.set d k v) k = Some v.
Proof.
  induction d as [|[k' v'] d IH]; simpl.
  - now rewrite String.eqb_refl.
  - destruct (String.eqb k' k) eqn:E; simpl; rewrite E; auto.
Qed.

Lemma dict_get_set_ne (d : Dict.t) k k' v :
  k <> k' -> Dict.get (Dict.set d k v) k' = Dict.get d k'.
Proof.
  intros Hne. induction d as [|[k0 v0] d IH]; simpl.
  - destruct (String.eqb k k') eqn:E; auto.
    apply String.eqb_eq in E. contradiction.
  - destruct (String.eqb k0 k) eqn:E; simpl.
    + apply String.eqb_eq in E. subst k0.
      destruct (String.eqb k k') eqn:E'; auto.
      apply String.eqb_eq in E'. contradiction.
    + now rewrite IH.
Qed.

Lemma dict_mem_get (d : Dict.t) k :
  Dict.mem d k = true <-> exists v, Dict.get d k = Some v.
Proof.
  unfold Dict.mem. destruct (Dict.get d k); split; eauto; try discriminate.
  intros [v Hv]. discriminate.
Qed.

(** ** The heap *)

Lemma deref_fresh h v cs hs ns gs :
  deref (World (h ++ [v]) cs hs ns gs) (length h) = v.
Proof.
  unfold deref; simpl. apply list_lookup_total_correct.
  now apply list_lookup_middle.
Qed.

Lemma deref_old h v cs hs ns gs w l :
  heap w = h -> (l < length h)%nat ->
  deref (World (h ++ [v]) cs hs ns gs) l = deref w l.
Proof.
  intros <- Hl. unfold deref; simpl. now apply lookup_total_app_l.
Qed.

Lemma insert_fresh (h : list json) v v' : <[length h := v']> (h ++ [v]) = h ++ [v'].
Proof.
  rewrite insert_app_r_alt by lia. now rewrite Nat.sub_diag.
Qed.

(** ** One request, step by step *)

Section Run.

Variable json_loads : option string -> outcome json.
Variable groq : groq_prompt -> outcome (option string).

Lemma fallback_run w l event :
  deref w l = JObj event ->
  fallback l w = (fallback_of event, w).
Proof.
  intros H. unfold fallback, fallback_of, py_get, load, bind, lift, ret, obind.
  rewrite H; simpl.
  destruct (json_get (Dict.get_or event "extracted_data" (JObj [])) "location" (JStr ""));
    [|reflexivity].
  destruct (json_get (Dict.get_or event "extracted_data" (JObj [])) "issues" (JStr ""));
    [|reflexivity].
  destruct (json_get (Dict.get_or event "context_details" (JObj []))
              "recipient_phone_number" (JStr "")); reflexivity.
Qed.

Lemma parse_run w l event text :
  deref w l = JObj event ->
  parse json_loads text l w = (parse_of (json_loads text) event, w).
Proof.
  intros H. unfold parse, try_except, lift, parse_of.
  destruct (json_loads text); [reflexivity|]. now apply fallback_run.
Qed.

Lemma route_run w groq_response :
  route groq_response w =
  match destination_of groq_response with
  | Raised e => (Raised e, w)
  | Returned hospital => forward_to_hospital groq_response w
  | Returned consultation => forward_to_consultation groq_response w
  end.
Proof.
  unfold route, destination_of, bind, lift, obind.
  destruct (json_get groq_response "status" (JStr "")) as [status|]; [|reflexivity].
  destruct (json_lower status) as [lowered|]; [|reflexivity].
  destruct (String.eqb lowered "emergency"); reflexivity.
Qed.

Lemma bind_returned {A B} (m : M A) (k : A -> M B) w a w' :
  m w = (Returned a, w') -> bind m k w = k a w'.
Proof. intros H. unfold bind. now rewrite H. Qed.

Lemma bind_raised {A B} (m : M A) (k : A -> M B) w e w' :
  m w = (Raised e, w') -> bind m k w = (Raised e, w').
Proof. intros H. unfold bind. now rewrite H. Qed.

Lemma py_get_run w l event key default :
  deref w l = JObj event ->
  py_get l key default w = (Returned (Dict.get_or event key default), w).
Proof. intros H. unfold py_get, bind, load, lift. now rewrite H. Qed.

Lemma py_in_run w l event key :
  deref w l = JObj event ->
  py_in key l w = (Returned (Dict.mem event key), w).
Proof. intros H. unfold py_in, bind, load, lift. now rewrite H. Qed.

Lemma py_setitem_run w l event key x :
  deref w l = JObj event ->
  py_setitem l key x w
  = (Returned tt,
     World (<[l := JObj (Dict.set event key x)]> (heap w)) (content_store w)
           (hospital_store w) (consultation_store w) (groq_calls w)).
Proof. intros H. unfold py_setitem, bind, load, lift, store. now rewrite H. Qed.

(** The first two statements of the handler: the payload becomes a new
    object, recorded in [content_store]. *)
Lemma ingest_run (payload : json) (k : loc -> M json) w :
  printable payload = true ->
  bind (lift (Returned payload))
    (fun payload => bind (py_print payload)
       (fun _ => bind (new_object payload)
          (fun data => bind (content_store_append data) (fun _ => k data)))) w
  = k (length (heap w)) (received w payload [] [] []).
Proof.
  intros Hp.
  unfold bind, lift, py_print, new_object, content_store_append, received.
  rewrite Hp; simpl. now rewrite !app_nil_r.
Qed.

(** A payload that cannot be printed ends the request before anything is
    stored. *)
Lemma webhook_unprintable json_loads0 groq0 payload w :
  printable payload = false ->
  webhook json_loads0 groq0 (Returned payload) w = (HTTPException 400 UnicodeEncodeError, w).
Proof.
  intros Hp. unfold webhook, webhook_try, bind, lift, py_print. now rewrite Hp.
Qed.

Lemma deref_received w v calls hs ns :
  deref (received w v calls hs ns) (length (heap w)) = v.
Proof. apply deref_fresh. Qed.

(** An event that is an object without [extracted_data] is stored and
    returned as it came. *)
Lemma webhook_skip event w :
  Dict.mem event "extracted_data" = false ->
  webhook json_loads groq (Returned (JObj event)) w
  = (Response (success (JObj event)), received w (JObj event) [] [] []).
Proof.
  intros Hmem. unfold webhook, webhook_try. rewrite ingest_run by reflexivity.
  erewrite bind_returned by (apply py_in_run, deref_received).
  rewrite Hmem. unfold bind, ret, load. now rewrite deref_received.
Qed.

(** An event that is an object with [extracted_data] goes through the
    classifier call, the parse step and the routing. *)
Lemma webhook_run event w :
  Dict.mem event "extracted_data" = true ->
  webhook json_loads groq (Returned (JObj event)) w
  = run_of json_loads (groq (prompt_of event)) event w.
Proof.
  intros Hmem. unfold webhook, webhook_try. rewrite ingest_run by reflexivity.
  set (w1 := received w (JObj event) [] [] []).
  assert (H1 : deref w1 (length (heap w)) = JObj event) by apply deref_received.
  erewrite bind_returned by (apply py_in_run, H1).
  rewrite Hmem. unfold process.
  unfold bind at 1.
  erewrite bind_returned by (apply py_get_run, H1).
  erewrite bind_returned by (apply py_get_run, H1).
  erewrite bind_returned by (apply py_get_run, H1).
  fold (prompt_of event).
  unfold bind at 1, chat_completion at 1, run_of, aborted, routed.
  set (w2 := received w (JObj event) [prompt_of event] [] []).
  replace (World (heap w1) (content_store w1) (hospital_store w1)
             (consultation_store w1) (groq_calls w1 ++ [prompt_of event]))
    with w2 by (unfold w1, w2, received; simpl; now rewrite !app_nil_r).
  assert (H2 : deref w2 (length (heap w)) = JObj event) by apply deref_received.
  destruct (groq (prompt_of event)) as [text|e]; [|reflexivity].
  unfold bind at 1. rewrite (parse_run _ _ event) by exact H2.
  destruct (parse_of (json_loads text) event) as [groq_response|e]; [|reflexivity].
  unfold bind at 1. rewrite route_run.
  destruct (destination_of groq_response) as [[|]|e]; [| |reflexivity].
  - unfold forward_to_hospital.
    erewrite bind_returned by (apply py_setitem_run; apply deref_fresh).
    cbn [heap content_store hospital_store consultation_store groq_calls w2 received].
    rewrite insert_fresh.
    erewrite py_setitem_run by apply deref_fresh.
    cbn [heap content_store hospital_store consultation_store groq_calls].
    rewrite insert_fresh.
    unfold bind, load, ret. rewrite deref_fresh.
    unfold received, enrich, success. now rewrite !app_nil_r.
  - unfold forward_to_consultation.
    erewrite bind_returned by (apply py_setitem_run; apply deref_fresh).
    cbn [heap content_store hospital_store consultation_store groq_calls w2 received].
    rewrite insert_fresh.
    erewrite py_setitem_run by apply deref_fresh.
    cbn [heap content_store hospital_store consultation_store groq_calls].
    rewrite insert_fresh.
    unfold bind, load, ret. rewrite deref_fresh.
    unfold received, enrich, success. now rewrite !app_nil_r.
Qed.

End Run.

(** ** Comparison of the status with [emergency] *)

Lemma lower_ascii_same_letter a b :
  is_upper b = false -> Ascii.eqb (lower_ascii a) b = same_letter a b.
Proof.
  intros Hb. unfold same_letter, lower_ascii. rewrite Hb, andb_false_l, orb_false_r.
  fold (is_upper a). destruct (is_upper a) eqn:Ha; simpl.
  - assert (Hab : Ascii.eqb a b = false).
    { destruct (Ascii.eqb_spec a b) as [->|]; [congruence|reflexivity]. }
    rewrite Hab; simpl.
    unfold is_upper in Ha. apply andb_prop in Ha as [_ Hle]. apply Nat.leb_le in Hle.
    destruct (Nat.eqb_spec (nat_of_ascii b) (nat_of_ascii a + 32)) as [E|E].
    + rewrite <- E, ascii_nat_embedding. apply Ascii.eqb_refl.
    + destruct (Ascii.eqb_spec (ascii_of_nat (nat_of_ascii a + 32)) b) as [E'|]; [|reflexivity].
      exfalso. apply E. rewrite <- E'. rewrite nat_ascii_embedding; lia.
  - now rewrite orb_false_r.
Qed.

Lemma lower_caseless s : forall t,
  no_upper t = true -> String.eqb (lower s) t = caseless_eq s t.
Proof.
  induction s as [|a s IH]; intros [|b t] Ht; simpl; try reflexivity.
  simpl in Ht. apply andb_prop in Ht as [Hb Ht]. apply negb_true_iff in Hb.
  rewrite (lower_ascii_same_letter a b Hb), (IH t Ht).
  reflexivity.
Qed.

Lemma destination_of_string answer s :
  Dict.get answer "status" = Some (JStr s) ->
  destination_of (JObj answer)
  = Returned (if caseless_eq s "emergency" then hospital else consultation).
Proof.
  intros H. unfold destination_of, json_get, Dict.get_or. rewrite H; simpl.
  now rewrite (lower_caseless s "emergency").
Qed.

Lemma destination_of_missing answer :
  Dict.get answer "status" = None ->
  destination_of (JObj answer) = Returned consultation.
Proof.
  intros H. unfold destination_of, json_get, Dict.get_or. now rewrite H.
Qed.

Lemma destination_of_unreadable v :
  readable_answer v = false ->
  destination_of v
  = Raised (match v with
            | JObj o => AttributeError (type_name (Dict.get_or o "status" (JStr ""))) "lower"
            | _ => AttributeError (type_name v) "get"
            end).
Proof.
  destruct v as [| | | | | |o]; simpl; try reflexivity.
  unfold destination_of, json_get, Dict.get_or; simpl.
  destruct (Dict.get o "status") as [[]|]; simpl; intros H;
    try discriminate; reflexivity.
Qed.

(** ** The fallback *)

Lemma fallback_of_heuristic event extracted :
  Dict.get event "extracted_data" = Some (JObj extracted) ->
  mapping_or_absent (Dict.get event "context_details") ->
  fallback_of event = Returned (heuristic event).
Proof.
  intros He Hc. unfold fallback_of, heuristic, Dict.get_or. rewrite He; simpl.
  destruct (Dict.get event "context_details") as [[]|]; simpl in *;
    try contradiction; reflexivity.
Qed.

Lemma fallback_of_ext e1 e2 :
  Dict.get e1 "extracted_data" = Dict.get e2 "extracted_data" ->
  Dict.get e1 "context_details" = Dict.get e2 "context_details" ->
  fallback_of e1 = fallback_of e2.
Proof.
  intros H1 H2. unfold fallback_of, Dict.get_or. now rewrite H1, H2.
Qed.

Lemma destination_of_heuristic event :
  destination_of (heuristic event) = Returned consultation.
Proof. reflexivity. Qed.

(** ** Requests that complete *)

Section Completion.

Variable json_loads : option string -> outcome json.
Variable groq : groq_prompt -> outcome (option string).

(** A request on an event with [extracted_data] ends in one of the two
    ways. *)
Lemma webhook_ends event w :
  Dict.mem event "extracted_data" = true ->
  (exists e, webhook json_loads groq (Returned (JObj event)) w = aborted event w e)
  \/ (exists classification dst,
        webhook json_loads groq (Returned (JObj event)) w
        = routed event w classification dst).
Proof.
  intros Hmem. rewrite (webhook_run _ _ _ _ Hmem). unfold run_of.
  destruct (groq (prompt_of event)) as [text|e]; [|left; eauto].
  destruct (parse_of (json_loads text) event) as [c|e]; [|left; eauto].
  destruct (destination_of c) as [dst|e]; [|left; eauto].
  right; eauto.
Qed.

Lemma completed_is_routed event w body w' :
  Dict.mem event "extracted_data" = true ->
  webhook json_loads groq (Returned (JObj event)) w = (Response body, w') ->
  exists classification dst,
    (Response body, w') = routed event w classification dst.
Proof.
  intros Hmem H. destruct (webhook_ends event w Hmem) as [[e He]|(c & dst & Hr)].
  - rewrite He in H. discriminate.
  - exists c, dst. now rewrite <- H, Hr.
Qed.

(** A decoded answer that the routing can read is routed as it is. *)
Lemma readable_answer_routed event w text answer dst :
  Dict.mem event "extracted_data" = true ->
  groq (prompt_of event) = Returned text ->
  json_loads text = Returned answer ->
  destination_of answer = Returned dst ->
  webhook json_loads groq (Returned (JObj event)) w = routed event w answer dst.
Proof.
  intros Hmem Hg Hl Hd. rewrite (webhook_run _ _ _ _ Hmem). unfold run_of.
  rewrite Hg, Hl; simpl. now rewrite Hd.
Qed.

End Completion.

Lemma enrich_get_other event c fr key :
  key <> "groq_response" -> key <> "forward_result" ->
  exists stored, enrich event c fr = JObj stored
                 /\ Dict.get stored key = Dict.get event key.
Proof.
  intros H1 H2. eexists; split; [reflexivity|].
  rewrite dict_get_set_ne by congruence. now rewrite dict_get_set_ne by congruence.
Qed.

Lemma enrich_get_fields event c fr :
  exists stored, enrich event c fr = JObj stored
                 /\ Dict.get stored "groq_response" = Some c
                 /\ Dict.get stored "forward_result" = Some fr.
Proof.
  eexists; split; [reflexivity|]. split.
  - rewrite dict_get_set_ne by discriminate. apply dict_get_set_eq.
  - apply dict_get_set_eq.
Qed.

Lemma deref_received_old w v calls hs ns l :
  (l < length (heap w))%nat -> deref (received w v calls hs ns) l = deref w l.
Proof. intros Hl. unfold received. now apply deref_old. Qed.

(** * The claims *)

Section Claims.

Variable json_loads : option string -> outcome json.
Variable groq : groq_prompt -> outcome (option string).

(** C1 (amended).  For every event that is an object with
    [extracted_data], when the classifier call raises (transport error,
    timeout), the request does not complete: the exception is surfaced to
    the caller as an HTTP 400, no classification and no routing are made
    (both intake stores keep their contents), and the event stays in the
    content store as it was received. *)
Theorem classifier_failure_is_surfaced event e w :
  Dict.mem event "extracted_data" = true ->
  groq (prompt_of event) = Raised e ->
  webhook json_loads groq (Returned (JObj event)) w
  = (HTTPException 400 e,
     World (heap w ++ [JObj event]) (content_store w ++ [length (heap w)])
           (hospital_store w) (consultation_store w)
           (groq_calls w ++ [prompt_of event])).
Proof.
  intros Hmem Hg. rewrite (webhook_run _ _ _ _ Hmem). unfold run_of.
  rewrite Hg. unfold aborted, received. now rewrite !app_nil_r.
Qed.

(** C2.  For every event with [extracted_data] whose decoded answer is an
    object: a [status] string equal to [emergency] up to case sends the
    answer to the hospital intake and the destination is hospital; any
    other [status] string, and a missing [status], send it to the
    consultation intake and the destination is consultation. *)
Theorem routing_follows_status event w text answer :
  Dict.mem event "extracted_data" = true ->
  groq (prompt_of event) = Returned text ->
  json_loads text = Returned (JObj answer) ->
  (forall s, Dict.get answer "status" = Some (JStr s) ->
             caseless_eq s "emergency" = true ->
             webhook json_loads groq (Returned (JObj event)) w
             = routed event w (JObj answer) hospital)
  /\ (forall s, Dict.get answer "status" = Some (JStr s) ->
                caseless_eq s "emergency" = false ->
                webhook json_loads groq (Returned (JObj event)) w
                = routed event w (JObj answer) consultation)
  /\ (Dict.get answer "status" = None ->
      webhook json_loads groq (Returned (JObj event)) w
      = routed event w (JObj answer) consultation).
Proof.
  intros Hmem Hg Hl. repeat split.
  - intros s Hs Hc. apply (readable_answer_routed _ _ _ _ text); auto.
    rewrite (destination_of_string _ s Hs). now rewrite Hc.
  - intros s Hs Hc. apply (readable_answer_routed _ _ _ _ text); auto.
    rewrite (destination_of_string _ s Hs). now rewrite Hc.
  - intros Hs. apply (readable_answer_routed _ _ _ _ text); auto.
    now apply destination_of_missing.
Qed.

(** C3 (amended).  For every event whose [extracted_data] is an object and
    whose [context_details] is absent or an object, whenever [json.loads]
    raises on the answer (text that is not JSON, or no text at all), the
    classification is the deterministic heuristic and the event is routed
    to consultation. *)
Theorem undecodable_answer_falls_back event extracted w text e :
  Dict.get event "extracted_data" = Some (JObj extracted) ->
  mapping_or_absent (Dict.get event "context_details") ->
  groq (prompt_of event) = Returned text ->
  json_loads text = Raised e ->
  webhook json_loads groq (Returned (JObj event)) w
  = routed event w (heuristic event) consultation.
Proof.
  intros He Hc Hg Hl.
  assert (Hmem : Dict.mem event "extracted_data" = true)
    by (apply dict_mem_get; eauto).
  rewrite (webhook_run _ _ _ _ Hmem). unfold run_of. rewrite Hg, Hl; simpl.
  rewrite (fallback_of_heuristic _ _ He Hc).
  now rewrite destination_of_heuristic.
Qed.

(** C4.  For every event that is an object without the key
    [extracted_data]: the request succeeds and returns the event as it
    came, with no classification and no routing outcome attached; the
    event is in the content store; neither intake store changes and the
    classifier is not called. *)
Theorem event_without_extracted_data event w :
  Dict.mem event "extracted_data" = false ->
  let w' := snd (webhook json_loads groq (Returned (JObj event)) w) in
  fst (webhook json_loads groq (Returned (JObj event)) w)
  = Response (success (JObj event))
  /\ content_store w' = content_store w ++ [length (heap w)]
  /\ deref w' (length (heap w)) = JObj event
  /\ In (JObj event) (content w')
  /\ hospital_store w' = hospital_store w
  /\ consultation_store w' = consultation_store w
  /\ groq_calls w' = groq_calls w.
Proof.
  intros Hmem. rewrite (webhook_skip _ _ _ _ Hmem). cbn [fst snd].
  assert (Hd : deref (received w (JObj event) [] [] []) (length (heap w)) = JObj event)
    by apply deref_received.
  repeat split; try (unfold received; simpl; now rewrite ?app_nil_r); auto.
  unfold content. apply in_map_iff. exists (length (heap w)). split; [exact Hd|].
  unfold received; simpl. apply in_or_app. right. now left.
Qed.

(** C5 (amended).  For every event with [extracted_data], the content
    store receives exactly one record for the event, appended whatever
    happens next; that record is the event object itself, and when
    processing completes it reads as the enriched event: the event as
    received with [groq_response] set to the classification that the parse
    step gave and [forward_result] set to what the routing of that
    classification returned, every other field being as received.  The
    same enriched event is what the caller gets, and nothing else is
    appended to the content store. *)
Theorem one_record_enriched_in_place event w :
  Dict.mem event "extracted_data" = true ->
  content_store (snd (webhook json_loads groq (Returned (JObj event)) w))
  = content_store w ++ [length (heap w)]
  /\ forall body w',
       webhook json_loads groq (Returned (JObj event)) w = (Response body, w') ->
       let called := received w (JObj event) [prompt_of event] [] [] in
       exists text classification forward_result routed_state,
         groq (prompt_of event) = Returned text
         /\ parse json_loads text (length (heap w)) called
            = (Returned classification, called)
         /\ route classification called = (Returned forward_result, routed_state)
         /\ body = success (enrich event classification forward_result)
         /\ w' = World (heap w ++ [enrich event classification forward_result])
                       (content_store w ++ [length (heap w)])
                       (hospital_store routed_state)
                       (consultation_store routed_state)
                       (groq_calls w ++ [prompt_of event])
         /\ exists stored,
              deref w' (length (heap w)) = JObj stored
              /\ Dict.get stored "groq_response" = Some classification
              /\ Dict.get stored "forward_result" = Some forward_result
              /\ forall key, key <> "groq_response" -> key <> "forward_result" ->
                             Dict.get stored key = Dict.get event key.
Proof.
  intros Hmem. split.
  - destruct (webhook_ends json_loads groq event w Hmem) as [[e ->]|(c & dst & ->)];
      reflexivity.
  - intros body w' H called.
    assert (Hd : deref called (length (heap w)) = JObj event) by apply deref_received.
    rewrite (webhook_run _ _ _ _ Hmem) in H. unfold run_of in H.
    destruct (groq (prompt_of event)) as [text|e] eqn:Hg; [|discriminate].
    destruct (parse_of (json_loads text) event) as [c|e] eqn:Hp; [|discriminate].
    destruct (destination_of c) as [dst|e] eqn:Hdst; [|discriminate].
    unfold routed in H. injection H as <- <-.
    exists text, c, (acknowledgement dst),
      (match dst with
       | hospital => snd (forward_to_hospital c called)
       | consultation => snd (forward_to_consultation c called)
       end).
    split; [reflexivity|].
    split; [rewrite (parse_run _ _ _ event) by exact Hd; now rewrite Hp|].
    split; [rewrite route_run, Hdst; now destruct dst|].
    split; [reflexivity|].
    split.
    { unfold received; destruct dst; simpl; now rewrite ?app_nil_r. }
    rewrite deref_received. unfold enrich. eexists. split; [reflexivity|].
    split; [rewrite dict_get_set_ne by discriminate; apply dict_get_set_eq|].
    split; [apply dict_get_set_eq|].
    intros key H1 H2.
    rewrite dict_get_set_ne by congruence. now rewrite dict_get_set_ne by congruence.
Qed.

(** C6 (amended).  Processing writes the event object in place, and writes
    only the two fields [groq_response] and [forward_result]: every other
    field of the stored event keeps the value it was received with, an
    event without [extracted_data] is not written at all, and the events
    stored by earlier requests are left as they are. *)
Theorem only_two_fields_written event w :
  let w' := snd (webhook json_loads groq (Returned (JObj event)) w) in
  (exists stored,
      deref w' (length (heap w)) = JObj stored
      /\ (Dict.mem event "extracted_data" = false -> stored = event)
      /\ forall key, key <> "groq_response" -> key <> "forward_result" ->
                     Dict.get stored key = Dict.get event key)
  /\ forall l, (l < length (heap w))%nat -> deref w' l = deref w l.
Proof.
  destruct (Dict.mem event "extracted_data") eqn:Hmem.
  - destruct (webhook_ends json_loads groq event w Hmem) as [[e ->]|(c & dst & ->)];
      cbn [snd aborted routed]; split.
    + exists event. rewrite deref_received. repeat split; auto.
    + intros l Hl. now apply deref_received_old.
    + rewrite deref_received. unfold enrich. eexists. split; [reflexivity|].
      split; [discriminate|]. intros key H1 H2.
      rewrite dict_get_set_ne by congruence. now rewrite dict_get_set_ne by congruence.
    + intros l Hl. now apply deref_received_old.
  - rewrite (webhook_skip _ _ _ _ Hmem). cbn [snd]. split.
    + exists event. rewrite deref_received. auto.
    + intros l Hl. now apply deref_received_old.
Qed.

(** C7 (amended).  For every answer that decodes to an object whose
    [status] is a string or is missing, whatever other keys are missing,
    the parse succeeds without the fallback and the classification is the
    decoded object itself, forwarded and attached unchanged: a missing key
    stays missing.  Only the reading of a missing [status] by the routing
    defaults to the empty string, which routes to consultation. *)
Theorem missing_keys_stay_missing event w text answer :
  Dict.mem event "extracted_data" = true ->
  groq (prompt_of event) = Returned text ->
  json_loads text = Returned (JObj answer) ->
  readable_answer (JObj answer) = true ->
  (forall l w0, deref w0 l = JObj event ->
                parse json_loads text l w0 = (Returned (JObj answer), w0))
  /\ exists dst,
       webhook json_loads groq (Returned (JObj event)) w
       = routed event w (JObj answer) dst
       /\ (Dict.get answer "status" = None -> dst = consultation).
Proof.
  intros Hmem Hg Hl Hr. split.
  - intros l w0 Hd. rewrite (parse_run _ _ _ event) by exact Hd. now rewrite Hl.
  - simpl in Hr. destruct (Dict.get answer "status") as [st|] eqn:Hs.
    + destruct st; try discriminate.
      eexists. split; [|discriminate].
      apply (readable_answer_routed _ _ _ _ text); auto.
      apply (destination_of_string _ s Hs).
    + exists consultation. split; [|reflexivity].
      apply (readable_answer_routed _ _ _ _ text); auto.
      now apply destination_of_missing.
Qed.

(** C8.  For every event with [extracted_data] that is processed to
    completion, one classification and one routing outcome are produced
    and attached, and exactly one intake is called, once: either the
    hospital store or the consultation store grows by this classification
    and the other one is unchanged.  Beyond that the request only stores
    the event and logs the classifier call. *)
Theorem exactly_one_intake_call event w body w' :
  Dict.mem event "extracted_data" = true ->
  webhook json_loads groq (Returned (JObj event)) w = (Response body, w') ->
  exists classification dst,
    body = success (enrich event classification (acknowledgement dst))
    /\ match dst with
       | hospital =>
           hospital_store w' = hospital_store w ++ [classification]
           /\ consultation_store w' = consultation_store w
       | consultation =>
           consultation_store w' = consultation_store w ++ [classification]
           /\ hospital_store w' = hospital_store w
       end
    /\ (length (hospital_store w') + length (consultation_store w')
        = length (hospital_store w) + length (consultation_store w) + 1)%nat
    /\ heap w' = heap w ++ [enrich event classification (acknowledgement dst)]
    /\ content_store w' = content_store w ++ [length (heap w)]
    /\ groq_calls w' = groq_calls w ++ [prompt_of event].
Proof.
  intros Hmem H.
  destruct (completed_is_routed _ _ _ _ _ _ Hmem H) as (c & dst & Hr).
  unfold routed in Hr. injection Hr as -> ->.
  exists c, dst. unfold received; cbn [heap content_store hospital_store
                                       consultation_store groq_calls].
  destruct dst; rewrite ?app_nil_r, ?length_app; simpl; repeat split; lia.
Qed.

(** C9.  The parse step is a pure function of the answer text and of the
    event's [extracted_data] and [context_details]: it gives the same
    classification for any two events that agree on these two fields, in
    any two states; it leaves the state as it found it; and running it
    again gives the same result. *)
Theorem parse_is_pure text l1 w1 e1 l2 w2 e2 :
  deref w1 l1 = JObj e1 ->
  deref w2 l2 = JObj e2 ->
  Dict.get e1 "extracted_data" = Dict.get e2 "extracted_data" ->
  Dict.get e1 "context_details" = Dict.get e2 "context_details" ->
  fst (parse json_loads text l1 w1) = fst (parse json_loads text l2 w2)
  /\ snd (parse json_loads text l1 w1) = w1
  /\ parse json_loads text l1 (snd (parse json_loads text l1 w1))
     = parse json_loads text l1 w1.
Proof.
  intros H1 H2 He Hc.
  rewrite (parse_run _ _ _ e1) by exact H1.
  rewrite (parse_run _ _ _ e2) by exact H2. cbn [fst snd].
  rewrite (parse_run _ _ _ e1) by exact H1.
  repeat split. unfold parse_of. destruct (json_loads text); [reflexivity|].
  now apply fallback_of_ext.
Qed.

(** C10.  If the answer decodes, but not to an object whose [status] is a
    string or is missing, the request aborts with an HTTP 400 caused by
    the [AttributeError] of the failed [.get] or [.lower]: there is no
    fallback, nothing is routed, and the event stays stored as it was
    received. *)
Theorem unreadable_answer_aborts event w text v :
  Dict.mem event "extracted_data" = true ->
  groq (prompt_of event) = Returned text ->
  json_loads text = Returned v ->
  readable_answer v = false ->
  webhook json_loads groq (Returned (JObj event)) w
  = (HTTPException 400
       (match v with
        | JObj o => AttributeError (type_name (Dict.get_or o "status" (JStr ""))) "lower"
        | _ => AttributeError (type_name v) "get"
        end),
     World (heap w ++ [JObj event]) (content_store w ++ [length (heap w)])
           (hospital_store w) (consultation_store w)
           (groq_calls w ++ [prompt_of event])).
Proof.
  intros Hmem Hg Hl Hr. rewrite (webhook_run _ _ _ _ Hmem). unfold run_of.
  rewrite Hg, Hl; simpl. rewrite (destination_of_unreadable v Hr).
  unfold aborted, received. now rewrite !app_nil_r.
Qed.

End Claims.

(** * The claims on concrete requests *)

(** The two scenarios of the specification on which the code agrees. *)
Example scenario_emergency :
  webhook PyJson.loads (answers answer_full) (Returned (JObj chest_pain)) initial_world
  = routed chest_pain initial_world
      (JObj [("status", JStr "emergency"); ("location", JStr "Main St");
             ("issue", JStr "chest pain"); ("recipient_phone_number", JStr "555-1111")])
      hospital.
Proof. vm_compute. reflexivity. Qed.

Example scenario_no_extracted_data :
  webhook PyJson.loads times_out (Returned (JObj greeting)) initial_world
  = (Response (success (JObj greeting)), World [JObj greeting] [0%nat] [] [] []).
Proof. vm_compute. reflexivity. Qed.

(** C1, as stated, fails on the timeout scenario of the specification: the
    request ends in an HTTP 400 and nothing reaches the consultation
    intake. *)
Lemma timeout_is_not_absorbed :
  fst (webhook PyJson.loads times_out (Returned (JObj chest_pain)) initial_world)
  = HTTPException 400 (ClientError "Request timed out.")
  /\ consultation_store
       (snd (webhook PyJson.loads times_out (Returned (JObj chest_pain)) initial_world))
     = []
  /\ webhook PyJson.loads times_out (Returned (JObj chest_pain)) initial_world
     <> routed chest_pain initial_world (heuristic chest_pain) consultation.
Proof. run. Qed.

Lemma classifier_failure_is_surfaced_witness :
  Dict.mem chest_pain "extracted_data" = true
  /\ webhook PyJson.loads times_out (Returned (JObj chest_pain)) initial_world
     = (HTTPException 400 (ClientError "Request timed out."),
        World [JObj chest_pain] [0%nat] [] [] [prompt_of chest_pain]).
Proof.
  split; [reflexivity|].
  apply (classifier_failure_is_surfaced PyJson.loads times_out chest_pain
           (ClientError "Request timed out.") initial_world); reflexivity.
Defined.

Lemma routing_follows_status_witness :
  webhook PyJson.loads (answers answer_status_only) (Returned (JObj chest_pain)) initial_world
  = routed chest_pain initial_world (JObj [("status", JStr "EMERGENCY")]) hospital
  /\ webhook PyJson.loads (answers answer_other_status) (Returned (JObj chest_pain))
       initial_world
     = routed chest_pain initial_world (JObj [("status", JStr "urgent")]) consultation
  /\ webhook PyJson.loads (answers answer_no_status) (Returned (JObj chest_pain))
       initial_world
     = routed chest_pain initial_world (JObj [("location", JStr "Main St")]) consultation.
Proof.
  split; [|split].
  - destruct (routing_follows_status PyJson.loads (answers answer_status_only) chest_pain
                initial_world (Some answer_status_only) [("status", JStr "EMERGENCY")])
      as (H & _ & _); [reflexivity | reflexivity | reflexivity |].
    apply (H "EMERGENCY"); reflexivity.
  - destruct (routing_follows_status PyJson.loads (answers answer_other_status) chest_pain
                initial_world (Some answer_other_status) [("status", JStr "urgent")])
      as (_ & H & _); [reflexivity | reflexivity | reflexivity |].
    apply (H "urgent"); reflexivity.
  - destruct (routing_follows_status PyJson.loads (answers answer_no_status) chest_pain
                initial_world (Some answer_no_status) [("location", JStr "Main St")])
      as (_ & _ & H); [reflexivity | reflexivity | reflexivity |].
    apply H; reflexivity.
Defined.

(** C3, as stated, fails on an answer that is JSON but not an object: the
    text [[]] is not the expected structure, and the request ends in an
    HTTP 400 instead of the fallback.  Nor is the fallback what happens
    when the classifier is unreachable: an answer that is not JSON is
    routed, a timeout is not. *)
Lemma array_answer_aborts :
  PyJson.loads (Some "[]") = Returned (JArr [])
  /\ webhook PyJson.loads (answers "[]") (Returned (JObj chest_pain)) initial_world
     = aborted chest_pain initial_world (AttributeError "list" "get")
  /\ webhook PyJson.loads (answers "[]") (Returned (JObj chest_pain)) initial_world
     <> routed chest_pain initial_world (heuristic chest_pain) consultation
  /\ webhook PyJson.loads (answers "It is an emergency.") (Returned (JObj chest_pain))
       initial_world
     <> webhook PyJson.loads times_out (Returned (JObj chest_pain)) initial_world.
Proof. run. Qed.

Lemma undecodable_answer_falls_back_witness :
  PyJson.loads (Some "It is an emergency.") = Raised JSONDecodeError
  /\ webhook PyJson.loads (answers "It is an emergency.") (Returned (JObj chest_pain))
       initial_world
     = routed chest_pain initial_world
         (JObj [("status", JStr "not emergency"); ("location", JStr "Main St");
                ("issue", JStr "chest pain"); ("recipient_phone_number", JStr "555-1111")])
         consultation.
Proof.
  split; [reflexivity|].
  apply (undecodable_answer_falls_back PyJson.loads (answers "It is an emergency.")
           chest_pain [("location", JStr "Main St"); ("issues", JStr "chest pain")]
           initial_world (Some "It is an emergency.") JSONDecodeError);
    [reflexivity | exact I | reflexivity | reflexivity].
Defined.

Lemma event_without_extracted_data_witness :
  Dict.mem greeting "extracted_data" = false
  /\ fst (webhook PyJson.loads times_out (Returned (JObj greeting)) initial_world)
     = Response (success (JObj greeting))
  /\ groq_calls (snd (webhook PyJson.loads times_out (Returned (JObj greeting)) initial_world))
     = [].
Proof.
  split; [reflexivity|].
  destruct (event_without_extracted_data PyJson.loads times_out greeting initial_world)
    as (H1 & _ & _ & _ & _ & _ & H7); [reflexivity|].
  split; [exact H1 | exact H7].
Defined.

(** C5, as stated, fails: after a completed request the content store holds
    one record for the event, not two; that record is the enriched event;
    the event as received is in none of the stores, and the enriched event
    was not appended to an intake store. *)
Lemma no_separate_raw_record :
  let w' := snd (webhook PyJson.loads (answers answer_status_only)
                   (Returned (JObj chest_pain)) initial_world) in
  content_store w' = [0%nat]
  /\ content w'
     = [enrich chest_pain (JObj [("status", JStr "EMERGENCY")]) (acknowledgement hospital)]
  /\ hospital_store w' = [JObj [("status", JStr "EMERGENCY")]]
  /\ consultation_store w' = []
  /\ ~ In (JObj chest_pain) (content w' ++ hospital_store w' ++ consultation_store w').
Proof. repeat split; try reflexivity. absent. Qed.

Lemma one_record_enriched_in_place_witness :
  content_store (snd (webhook PyJson.loads (answers answer_status_only)
                        (Returned (JObj chest_pain)) initial_world))
  = [0%nat]
  /\ deref (snd (webhook PyJson.loads (answers answer_status_only)
                   (Returned (JObj chest_pain)) initial_world)) 0
     = enrich chest_pain (JObj [("status", JStr "EMERGENCY")]) (acknowledgement hospital).
Proof.
  destruct (one_record_enriched_in_place PyJson.loads (answers answer_status_only)
              chest_pain initial_world) as [H1 H2]; [reflexivity|].
  split; [exact H1|].
  destruct (H2 _ _ eq_refl) as (text & c & fr & rs & Hg & Hp & Hr & _ & Hw & _).
  injection Hg as <-.
  vm_compute in Hp. injection Hp as <-.
  vm_compute in Hr. injection Hr as <- <-.
  reflexivity.
Defined.

(** C6, as stated, fails: the stored event is written after ingestion, and
    a field the event came with can be overwritten. *)
Lemma stored_event_is_rewritten :
  let w' := snd (webhook PyJson.loads (answers "no idea") (Returned (JObj relabelled))
                   initial_world) in
  Dict.get relabelled "groq_response" = Some (JStr "pending")
  /\ deref w' 0
     = JObj [("extracted_data", JObj []);
             ("groq_response",
              JObj [("status", JStr "not emergency"); ("location", JStr "");
                    ("issue", JStr ""); ("recipient_phone_number", JStr "")]);
             ("forward_result", acknowledgement consultation)]
  /\ deref w' 0 <> JObj relabelled.
Proof. run. Qed.

Lemma only_two_fields_written_witness :
  exists stored,
    deref (snd (webhook PyJson.loads (answers "no idea") (Returned (JObj relabelled))
                  initial_world)) 0
    = JObj stored
    /\ Dict.get stored "extracted_data" = Some (JObj []).
Proof.
  destruct (only_two_fields_written PyJson.loads (answers "no idea") relabelled initial_world)
    as [(stored & Hd & _ & Hk) _].
  exists stored. split; [exact Hd|].
  rewrite (Hk "extracted_data"); [reflexivity | discriminate | discriminate].
Defined.

(** C7, as stated, fails: the key [location] is missing from the answer and
    stays missing from the classification that is forwarded and attached;
    no empty string is put in its place. *)
Lemma missing_key_not_defaulted :
  let w' := snd (webhook PyJson.loads (answers answer_status_only)
                   (Returned (JObj chest_pain)) initial_world) in
  PyJson.loads (Some answer_status_only) = Returned (JObj [("status", JStr "EMERGENCY")])
  /\ hospital_store w' = [JObj [("status", JStr "EMERGENCY")]]
  /\ Dict.get [("status", JStr "EMERGENCY")] "location" = None
  /\ Dict.get [("status", JStr "EMERGENCY")] "location" <> Some (JStr "").
Proof. run. Qed.

Lemma missing_keys_stay_missing_witness :
  readable_answer (JObj [("location", JStr "Main St")]) = true
  /\ webhook PyJson.loads (answers answer_no_status) (Returned (JObj chest_pain))
       initial_world
     = routed chest_pain initial_world (JObj [("location", JStr "Main St")]) consultation.
Proof.
  split; [reflexivity|].
  destruct (missing_keys_stay_missing PyJson.loads (answers answer_no_status) chest_pain
              initial_world (Some answer_no_status) [("location", JStr "Main St")])
    as (_ & dst & H & Hdst); [reflexivity | reflexivity | reflexivity | reflexivity |].
  rewrite H. now rewrite (Hdst eq_refl).
Defined.

Lemma exactly_one_intake_call_witness :
  exists classification,
    hospital_store (snd (webhook PyJson.loads (answers answer_status_only)
                           (Returned (JObj chest_pain)) initial_world))
    = [classification]
    /\ consultation_store (snd (webhook PyJson.loads (answers answer_status_only)
                                  (Returned (JObj chest_pain)) initial_world))
       = [].
Proof.
  destruct (exactly_one_intake_call PyJson.loads (answers answer_status_only) chest_pain
              initial_world _ _ eq_refl eq_refl) as (c & dst & Hb & Hs & _).
  destruct dst.
  - exists c. exact Hs.
  - vm_compute in Hb. discriminate Hb.
Defined.

Lemma parse_is_pure_witness :
  fst (parse PyJson.loads (Some "no idea") 0 (World [JObj chest_pain] [0%nat] [] [] []))
  = fst (parse PyJson.loads (Some "no idea") 1
           (World [JObj greeting; JObj (("note", JNull) :: chest_pain)] [] [] [] [])).
Proof.
  apply (parse_is_pure PyJson.loads (Some "no idea")
           0%nat (World [JObj chest_pain] [0%nat] [] [] []) chest_pain
           1%nat (World [JObj greeting; JObj (("note", JNull) :: chest_pain)] [] [] [] [])
           (("note", JNull) :: chest_pain)); reflexivity.
Defined.

Lemma unreadable_answer_aborts_witness :
  PyJson.loads (Some answer_numeric_status) = Returned (JObj [("status", JInt 1)])
  /\ webhook PyJson.loads (answers answer_numeric_status) (Returned (JObj chest_pain))
       initial_world
     = (HTTPException 400 (AttributeError "int" "lower"),
        World [JObj chest_pain] [0%nat] [] [] [prompt_of chest_pain]).
Proof.
  split; [reflexivity|].
  apply (unreadable_answer_aborts PyJson.loads (answers answer_numeric_status) chest_pain
           initial_world (Some answer_numeric_status) (JObj [("status", JInt 1)]));
    reflexivity.
Defined.

(** * Further properties of the endpoints *)

(** ** Requests on any payload *)

Lemma destination_hospital_inv v :
  destination_of v = Returned hospital ->
  exists answer s,
    v = JObj answer
    /\ Dict.get answer "status" = Some (JStr s)
    /\ caseless_eq s "emergency" = true.
Proof.
  destruct v as [| | | | | |answer]; try discriminate.
  unfold destination_of, json_get, Dict.get_or; simpl.
  destruct (Dict.get answer "status") as [[| | | |s| |]|] eqn:Hs; simpl; try discriminate.
  rewrite (lower_caseless s "emergency") by reflexivity.
  destruct (caseless_eq s "emergency") eqn:Hc; [|discriminate].
  intros _. exists answer, s. auto.
Qed.

Lemma fallback_of_consultation event c :
  fallback_of event = Returned c -> destination_of c = Returned consultation.
Proof.
  unfold fallback_of, obind.
  destruct (json_get (Dict.get_or event "extracted_data" (JObj [])) "location" (JStr ""));
    [|discriminate].
  destruct (json_get (Dict.get_or event "extracted_data" (JObj [])) "issues" (JStr ""));
    [|discriminate].
  destruct (json_get (Dict.get_or event "context_details" (JObj []))
              "recipient_phone_number" (JStr "")); [|discriminate].
  intros H. injection H as <-. reflexivity.
Qed.

Lemma addresses_valid_received w stored calls hs ns :
  addresses_valid w -> addresses_valid (received w stored calls hs ns).
Proof.
  intros Hv. unfold addresses_valid, received; simpl.
  rewrite length_app; simpl. apply Forall_app. split.
  - eapply Forall_impl; [exact Hv|]. simpl. intros; lia.
  - repeat constructor. lia.
Qed.


Section AnyPayload.

Variable json_loads : option string -> outcome json.
Variable groq : groq_prompt -> outcome (option string).

(** A payload that is not an object is stored, and then either returned as
    it came or refused, according to what ['extracted_data' in data] does
    on it. *)
Lemma webhook_non_object payload w :
  is_object payload = false ->
  printable payload = true ->
  webhook json_loads groq (Returned payload) w
  = (match json_in "extracted_data" payload with
     | Raised e => HTTPException 400 e
     | Returned true => HTTPException 400 (AttributeError (type_name payload) "get")
     | Returned false => Response (success payload)
     end,
     received w payload [] [] []).
Proof.
  intros Hp Hpr. unfold webhook, webhook_try. rewrite ingest_run by exact Hpr.
  unfold bind at 1, py_in, bind at 1, load at 1, lift at 1.
  rewrite deref_received.
  destruct (json_in "extracted_data" payload) as [[|]|e]; [| |reflexivity].
  - unfold process, bind, py_get, bind, load, lift. rewrite deref_received.
    destruct payload; try discriminate; reflexivity.
  - unfold bind, ret, load. now rewrite deref_received.
Qed.

(** Whatever the payload that was printed, a request leaves the state in
    the shape [received]: one stored object, at most one classifier call,
    and an intake call only after a classifier call; a response carries the
    stored object. *)
Lemma webhook_shape payload w :
  printable payload = true ->
  exists r stored calls hs ns,
    webhook json_loads groq (Returned payload) w = (r, received w stored calls hs ns)
    /\ (length hs + length ns <= length calls)%nat
    /\ (length calls <= 1)%nat
    /\ (forall body, r = Response body -> body = success stored)
    /\ (stored = payload
        \/ exists event c dst,
             payload = JObj event /\ stored = enrich event c (acknowledgement dst)).
Proof.
  intros Hpr. destruct (is_object payload) eqn:Hp.
  - destruct payload as [| | | | | |event]; try discriminate.
    destruct (Dict.mem event "extracted_data") eqn:Hmem.
    + destruct (webhook_ends json_loads groq event w Hmem) as [[e ->]|(c & dst & ->)].
      * unfold aborted. do 5 eexists. split; [reflexivity|]. simpl.
        repeat split; auto; try lia. discriminate.
      * unfold routed. do 5 eexists. split; [reflexivity|].
        split; [destruct dst; simpl; lia|]. split; [simpl; lia|].
        split; [intros body H; now injection H as <-|].
        right. exists event, c, dst. auto.
    + rewrite (webhook_skip _ _ _ _ Hmem). do 5 eexists. split; [reflexivity|]. simpl.
      repeat split; auto. intros body H. now injection H as <-.
  - rewrite (webhook_non_object _ _ Hp Hpr). do 5 eexists. split; [reflexivity|]. simpl.
    repeat split; auto.
    intros body H. destruct (json_in "extracted_data" payload) as [[|]|];
      try discriminate. now injection H as <-.
Qed.

(** The addresses of the content store stay valid: they are in the initial
    state, and every endpoint keeps them so. *)
Lemma addresses_valid_kept request_json w :
  addresses_valid initial_world
  /\ (addresses_valid w ->
      addresses_valid (snd (webhook json_loads groq request_json w))
      /\ addresses_valid (snd (hospital_endpoint request_json w))
      /\ addresses_valid (snd (consultation_endpoint request_json w))).
Proof.
  split; [constructor|]. intros Hw.
  destruct request_json as [payload|e]; [|auto].
  split; [|split; exact Hw].
  destruct (printable payload) eqn:Hpr.
  - destruct (webhook_shape payload w Hpr) as (r & stored & calls & hs & ns & -> & _).
    now apply addresses_valid_received.
  - now rewrite (webhook_unprintable _ _ _ _ Hpr).
Qed.

End AnyPayload.

Section Extras.

Variable json_loads : option string -> outcome json.
Variable groq : groq_prompt -> outcome (option string).

(** X1.  A request leaves the state untouched exactly when it fails before
    the payload is stored: the body could not be decoded, or the decoded
    payload could not be printed (a string that holds a surrogate).  The
    answer is then an HTTP 400 carrying that error.  Every other request
    changes the state, even when it fails later. *)
Theorem state_unchanged_iff_body_invalid request_json w :
  snd (webhook json_loads groq request_json w) = w
  <-> exists e,
        webhook json_loads groq request_json w = (HTTPException 400 e, w)
        /\ (request_json = Raised e
            \/ (e = UnicodeEncodeError
                /\ exists s, request_json = Returned (JStr s)
                             /\ has_surrogate s = true)).
Proof.
  split.
  - destruct request_json as [payload|e].
    2:{ intros _. exists e. split; [reflexivity | now left]. }
    destruct (printable payload) eqn:Hpr.
    + destruct (webhook_shape json_loads groq payload w Hpr)
        as (r & stored & calls & hs & ns & -> & _).
      cbn [snd]. intros H. apply (f_equal (fun x => length (heap x))) in H.
      unfold received in H; simpl in H. rewrite length_app in H. simpl in H. lia.
    + intros _. exists UnicodeEncodeError.
      split; [now apply webhook_unprintable|]. right. split; [reflexivity|].
      destruct payload as [| | | |s| |]; try discriminate.
      exists s. split; [reflexivity|]. simpl in Hpr. now apply negb_false_iff in Hpr.
  - intros (e & -> & _). reflexivity.
Qed.




(** X6.  Nothing reaches the hospital store through [/webhook] unless the
    classifier answered and the answer decoded to an object whose [status]
    is a string equal to [emergency] up to case; what is stored is that
    answer.  In particular the fallback never routes to the hospital. *)
Theorem hospital_only_on_emergency_answer request_json w :
  hospital_store (snd (webhook json_loads groq request_json w)) <> hospital_store w ->
  exists event text answer s,
    request_json = Returned (JObj event)
    /\ groq (prompt_of event) = Returned text
    /\ json_loads text = Returned (JObj answer)
    /\ Dict.get answer "status" = Some (JStr s)
    /\ caseless_eq s "emergency" = true
    /\ hospital_store (snd (webhook json_loads groq request_json w))
       = hospital_store w ++ [JObj answer].
Proof.
  intros H. destruct request_json as [payload|e]; [|now contradiction H].
  assert (Hsame : forall r stored calls ns,
             webhook json_loads groq (Returned payload) w
             = (r, received w stored calls [] ns) -> False).
  { intros r stored calls ns Hw. apply H. rewrite Hw. unfold received; simpl.
    apply app_nil_r. }
  destruct (is_object payload) eqn:Hp.
  2:{ exfalso. destruct (printable payload) eqn:Hpr.
      - eapply Hsame. apply (webhook_non_object _ _ _ _ Hp Hpr).
      - apply H. now rewrite (webhook_unprintable _ _ _ _ Hpr). }
  destruct payload as [| | | | | |event]; try discriminate.
  destruct (Dict.mem event "extracted_data") eqn:Hmem.
  2:{ exfalso. eapply Hsame. apply (webhook_skip _ _ _ _ Hmem). }
  rewrite (webhook_run _ _ _ _ Hmem) in *. unfold run_of in *.
  destruct (groq (prompt_of event)) as [text|e] eqn:Hg.
  2:{ exfalso. eapply Hsame. reflexivity. }
  destruct (json_loads text) as [v|e] eqn:Hl; simpl in *.
  - destruct (destination_of v) as [[|]|e] eqn:Hd.
    + destruct (destination_hospital_inv v Hd) as (answer & s & -> & Hs & Hc).
      exists event, text, answer, s. repeat split; auto.
    + exfalso. eapply Hsame. reflexivity.
    + exfalso. eapply Hsame. reflexivity.
  - destruct (fallback_of event) as [c|e'] eqn:Hf.
    + rewrite (fallback_of_consultation _ _ Hf) in *.
      exfalso. eapply Hsame. reflexivity.
    + exfalso. eapply Hsame. reflexivity.
Qed.

(** X7.  The fallback can fail.  When [json.loads] raises on the answer and
    the event's [extracted_data] is not an object, or is one while
    [context_details] is present and not an object, reading the fallback
    fields raises [AttributeError] and the request ends in an HTTP 400:
    nothing is routed and the event stays stored as received. *)
Theorem fallback_needs_mappings event w text e v :
  groq (prompt_of event) = Returned text ->
  json_loads text = Raised e ->
  is_object v = false ->
  (Dict.get event "extracted_data" = Some v
   \/ (exists extracted, Dict.get event "extracted_data" = Some (JObj extracted))
      /\ Dict.get event "context_details" = Some v) ->
  webhook json_loads groq (Returned (JObj event)) w
  = aborted event w (AttributeError (type_name v) "get").
Proof.
  intros Hg Hl Hv Hcase.
  assert (Hmem : Dict.mem event "extracted_data" = true).
  { apply dict_mem_get. destruct Hcase as [H|[[x H] _]]; eauto. }
  rewrite (webhook_run _ _ _ _ Hmem). unfold run_of. rewrite Hg, Hl; simpl.
  unfold fallback_of, Dict.get_or.
  destruct Hcase as [He|[[extracted He] Hc]].
  - rewrite He. destruct v; try discriminate; reflexivity.
  - rewrite He, Hc; simpl. destruct v; try discriminate; reflexivity.
Qed.

(** X8.  What a successful request returns under [data] is the record the
    content store holds for it, as it reads when the request ends. *)
Theorem response_is_the_stored_record request_json w body w' :
  webhook json_loads groq request_json w = (Response body, w') ->
  body = success (deref w' (length (heap w)))
  /\ content_store w' = content_store w ++ [length (heap w)].
Proof.
  intros H. destruct request_json as [payload|e]; [|discriminate].
  destruct (printable payload) eqn:Hpr.
  2:{ rewrite (webhook_unprintable _ _ _ _ Hpr) in H. discriminate. }
  destruct (webhook_shape json_loads groq payload w Hpr)
    as (r & stored & calls & hs & ns & Hw & _ & _ & Hb & _).
  rewrite Hw in H. injection H as -> <-.
  rewrite deref_received. split; [now apply Hb | reflexivity].
Qed.

(** X9.  The answer to a request does not depend on the state: what earlier
    requests stored has no influence on the response. *)
Theorem response_is_independent_of_state request_json w1 w2 :
  fst (webhook json_loads groq request_json w1)
  = fst (webhook json_loads groq request_json w2).
Proof.
  destruct request_json as [payload|e]; [|reflexivity].
  destruct (is_object payload) eqn:Hp.
  - destruct payload as [| | | | | |event]; try discriminate.
    destruct (Dict.mem event "extracted_data") eqn:Hmem.
    + rewrite !(webhook_run _ _ _ _ Hmem). unfold run_of.
      destruct (groq (prompt_of event)) as [text|e]; [|reflexivity].
      destruct (parse_of (json_loads text) event) as [c|e]; [|reflexivity].
      destruct (destination_of c) as [dst|e]; reflexivity.
    + now rewrite !(webhook_skip _ _ _ _ Hmem).
  - destruct (printable payload) eqn:Hpr.
    + now rewrite !(webhook_non_object _ _ _ _ Hp Hpr).
    + now rewrite !(webhook_unprintable _ _ _ _ Hpr).
Qed.

End Extras.

(** ** The intake endpoints *)

(** X10.  Direct posts to [/hospital] and [/consultation] commute: in either
    order they give the same answers and the same final state. *)
Theorem intake_endpoints_commute a b w :
  snd (consultation_endpoint b (snd (hospital_endpoint a w)))
  = snd (hospital_endpoint a (snd (consultation_endpoint b w)))
  /\ fst (hospital_endpoint a (snd (consultation_endpoint b w)))
     = fst (hospital_endpoint a w)
  /\ fst (consultation_endpoint b (snd (hospital_endpoint a w)))
     = fst (consultation_endpoint b w).
Proof. destruct a, b; repeat split. Qed.

(** X11.  The forwarding helpers of [/webhook] simulate the intake
    endpoints: [forward_to_hospital] leaves the state that a post of the
    same data to [/hospital] leaves, and [forward_to_consultation] the one
    that a post to [/consultation] leaves. *)
Theorem forwarding_simulates_endpoint data w :
  snd (forward_to_hospital data w) = snd (hospital_endpoint (Returned data) w)
  /\ snd (forward_to_consultation data w)
     = snd (consultation_endpoint (Returned data) w).
Proof. split; reflexivity. Qed.

(** X12.  An intake endpoint accepts any decoded payload, object or not,
    without a check, and stores exactly it; it fails, with an HTTP 400 and
    an unchanged state, only on a body that is not JSON.  It never writes
    the content store, the heap or the other intake store. *)
Theorem intake_endpoint_outcomes request_json w :
  (snd (hospital_endpoint request_json w) = w <-> exists e, request_json = Raised e)
  /\ (forall payload, request_json = Returned payload ->
        hospital_endpoint request_json w
        = (Response (JObj [("status", JStr "success");
                           ("message", JStr "Data received by hospital API");
                           ("data", payload)]),
           World (heap w) (content_store w) (hospital_store w ++ [payload])
                 (consultation_store w) (groq_calls w)))
  /\ (forall e, request_json = Raised e ->
        hospital_endpoint request_json w = (HTTPException 400 e, w)).
Proof.
  split; [|split].
  - split.
    + destruct request_json as [payload|e]; [|eauto].
      intros H. apply (f_equal (fun x => length (hospital_store x))) in H.
      simpl in H. rewrite length_app in H. simpl in H. lia.
    + intros [e ->]. reflexivity.
  - intros payload ->. reflexivity.
  - intros e ->. reflexivity.
Qed.

(** ** The call endpoint *)

Section CallFacts.

Variable getenv : string -> option string.
Variable requests_post : post_request -> call_error + vendor_response.
Variable http_exception_str : Z -> string -> string.

(** X13.  [/make-call] succeeds exactly when the vendor answered, its status
    was not an error and its body was JSON: then the body is returned under
    [data].  In every other case the endpoint answers with status 500 and
    with no other status. *)
Theorem make_call_outcomes recipient :
  match requests_post (bolna_request getenv recipient) with
  | inr (VendorResponse None (inr result)) =>
      initiate_call getenv requests_post http_exception_str recipient
      = CallResponse (JObj [("status", JStr "success"); ("data", result)])
  | _ =>
      exists detail,
        initiate_call getenv requests_post http_exception_str recipient
        = CallFailed 500 detail
  end.
Proof.
  unfold initiate_call, make_bolna_call, bolna_attempt.
  destruct (requests_post (bolna_request getenv recipient)) as [e|[[e|] [e'|result]]];
    simpl; try reflexivity;
    try (destruct (is_request_exception e); eexists; reflexivity).
  destruct (is_request_exception e'); eexists; reflexivity.
Qed.

(** X14.  A failure that is a [RequestException] is wrapped twice: the
    detail the caller gets is the text of the inner [HTTPException] (status
    500, detail [API call failed: ] and the error), not the error alone;
    any other exception is reported by its own text. *)
Theorem call_failure_detail recipient e :
  bolna_attempt getenv requests_post recipient = inl e ->
  initiate_call getenv requests_post http_exception_str recipient
  = CallFailed 500
      (if is_request_exception e
       then http_exception_str 500 ("API call failed: " +:+ error_text e)
       else error_text e).
Proof.
  intros H. unfold initiate_call, make_bolna_call. rewrite H.
  destruct (is_request_exception e); reflexivity.
Qed.

End CallFacts.

(** ** The further properties on concrete requests *)

(** The body ["\ud800"] decodes to a string that cannot be printed. *)
Example lone_surrogate_decoded :
  PyJson.loads (Some (quote +:+ "\ud800" +:+ quote)) = Returned (JStr lone_surrogate)
  /\ printable (JStr lone_surrogate) = false.
Proof. split; reflexivity. Qed.

Lemma state_unchanged_iff_body_invalid_witness :
  snd (webhook PyJson.loads times_out (Raised JSONDecodeError) initial_world)
  = initial_world.
Proof.
  apply (proj2 (state_unchanged_iff_body_invalid PyJson.loads times_out
                  (Raised JSONDecodeError) initial_world)).
  exists JSONDecodeError. split; [reflexivity | now left].
Defined.




Lemma hospital_only_on_emergency_answer_witness :
  exists event text answer s,
    Returned (JObj chest_pain) = Returned (JObj event)
    /\ answers answer_status_only (prompt_of event) = Returned text
    /\ PyJson.loads text = Returned (JObj answer)
    /\ Dict.get answer "status" = Some (JStr s)
    /\ caseless_eq s "emergency" = true.
Proof.
  destruct (hospital_only_on_emergency_answer PyJson.loads (answers answer_status_only)
              (Returned (JObj chest_pain)) initial_world)
    as (event & text & answer & s & H1 & H2 & H3 & H4 & H5 & _).
  - vm_compute. discriminate.
  - exists event, text, answer, s. auto.
Defined.

Lemma fallback_needs_mappings_witness :
  webhook PyJson.loads (answers "no idea") (Returned (JObj flat_event)) initial_world
  = aborted flat_event initial_world (AttributeError "str" "get")
  /\ webhook PyJson.loads (answers "no idea") (Returned (JObj null_context)) initial_world
     = aborted null_context initial_world (AttributeError "NoneType" "get").
Proof.
  split.
  - apply (fallback_needs_mappings PyJson.loads (answers "no idea") flat_event
             initial_world (Some "no idea") JSONDecodeError (JStr "Main St"));
      [reflexivity | reflexivity | reflexivity | left; reflexivity].
  - apply (fallback_needs_mappings PyJson.loads (answers "no idea") null_context
             initial_world (Some "no idea") JSONDecodeError JNull);
      [reflexivity | reflexivity | reflexivity |].
    right. split; [exists []; reflexivity | reflexivity].
Defined.

Lemma response_is_the_stored_record_witness :
  content_store (snd (webhook PyJson.loads (answers answer_full)
                        (Returned (JObj chest_pain)) initial_world))
  = [0%nat].
Proof.
  exact (proj2 (response_is_the_stored_record PyJson.loads (answers answer_full)
                  (Returned (JObj chest_pain)) initial_world _ _ eq_refl)).
Defined.

Lemma response_is_independent_of_state_witness :
  fst (webhook PyJson.loads (answers answer_full) (Returned (JObj chest_pain))
         initial_world)
  = fst (webhook PyJson.loads (answers answer_full) (Returned (JObj chest_pain))
           (World [JObj greeting] [0%nat] [JNull] [] [])).
Proof.
  exact (response_is_independent_of_state PyJson.loads (answers answer_full)
           (Returned (JObj chest_pain)) initial_world
           (World [JObj greeting] [0%nat] [JNull] [] [])).
Defined.

Lemma intake_endpoint_outcomes_witness :
  hospital_endpoint (Returned (JInt 5)) initial_world
  = (Response (JObj [("status", JStr "success");
                     ("message", JStr "Data received by hospital API");
                     ("data", JInt 5)]),
     World [] [] [JInt 5] [] []).
Proof.
  destruct (intake_endpoint_outcomes (Returned (JInt 5)) initial_world) as (_ & H & _).
  exact (H (JInt 5) eq_refl).
Defined.

Lemma make_call_outcomes_witness :
  initiate_call no_env vendor_accepts colon_str "555-1111"
  = CallResponse (JObj [("status", JStr "success");
                        ("data", JObj [("call_id", JStr "c-1")])])
  /\ exists detail,
       initiate_call no_env vendor_rejects colon_str "555-1111" = CallFailed 500 detail.
Proof.
  split.
  - exact (make_call_outcomes no_env vendor_accepts colon_str "555-1111").
  - exact (make_call_outcomes no_env vendor_rejects colon_str "555-1111").
Defined.

Lemma call_failure_detail_witness :
  initiate_call no_env connection_fails colon_str "555-1111"
  = CallFailed 500 "500: API call failed: Connection refused".
Proof.
  exact (call_failure_detail no_env connection_fails colon_str "555-1111"
           (CallError true "Connection refused") eq_refl).
Defined.
